(** * PDF editor backend: a shallow embedding of [backend/app.py] and
      [backend/google_fonts_downloader.py]

    The two request handlers ([extract_fonts], [edit_pdf]) and the font
    downloader ([GoogleFontsDownloader.download_font]) are Python code that
    calls into PyMuPDF ([fitz]), [requests], [json], [re] and [pathlib].

    Conventions of the embedding.
    - A Python [str] is a Rocq [string]; its characters are read as the code
      points U+0000..U+00FF.  On that range [\d] is [0-9] and the white
      space of [str.strip] and of [\s] is 09-0D, 1C-1F, 20, 85 and A0.
    - A Python [int] is a [Z]; a Python [float] is a primitive binary64
      [float]; a JSON number is one or the other ([num]).
    - An exception is a value of [exn]; code that may raise returns a
      [result], code that also changes the world (the font cache on disk,
      the network, the open document) runs in the monad [M].
    - What the external libraries decide (whether a byte string parses as a
      PDF, what a URL answers, whether PyMuPDF accepts a drawing call) is a
      field of the class [Env]; every theorem holds for every [Env].
    - Logging ([print]) is not modelled. *)

From Stdlib Require Import ZArith NArith Floats Ascii String DecimalString Lia.
From stdpp Require Import base option list gmap strings.

Set Default Proof Using "Type".

(** ** Python strings *)

Module PyStr.

Local Open Scope N_scope.

Definition code (c : ascii) : N := N_of_ascii c.

(** [str.isspace] on one character, which is also what [\s] matches. *)
Definition is_space (c : ascii) : bool :=
  let n := code c in
  ((9 <=? n) && (n <=? 13)) || ((28 <=? n) && (n <=? 32))
  || (n =? 133) || (n =? 160).

(** [\d]: the decimal digits. *)
Definition is_digit (c : ascii) : bool :=
  let n := code c in (48 <=? n) && (n <=? 57).

Definition eqc (a b : ascii) : bool := Ascii.eqb a b.

(** [s.lstrip()] *)
Fixpoint lstrip (s : string) : string :=
  match s with
  | EmptyString => EmptyString
  | String c t => if is_space c then lstrip t else s
  end.

(** [s.rstrip()] *)
Fixpoint rstrip (s : string) : string :=
  match s with
  | EmptyString => EmptyString
  | String c t =>
      match rstrip t with
      | EmptyString => if is_space c then EmptyString else String c EmptyString
      | t' => String c t'
      end
  end.

(** [s.strip()] *)
Definition strip (s : string) : string := rstrip (lstrip s).

(** [s.replace(a, b)] for one-character [a] and [b]. *)
Fixpoint replace (a b : ascii) (s : string) : string :=
  match s with
  | EmptyString => EmptyString
  | String c t => String (if eqc c a then b else c) (replace a b t)
  end.

(** [s.split(sep)] for a one-character separator: never the empty list. *)
Fixpoint split (sep : ascii) (s : string) : list string :=
  match s with
  | EmptyString => [EmptyString]
  | String c t =>
      if eqc c sep then EmptyString :: split sep t
      else match split sep t with
           | h :: r => String c h :: r
           | [] => [String c EmptyString]
           end
  end.

(** The longest prefix whose characters satisfy [f], and the rest: how a
    greedy [\d+] or [\s*] reads when what follows cannot start with a
    character of the class. *)
Fixpoint span (f : ascii -> bool) (s : string) : string * string :=
  match s with
  | EmptyString => (EmptyString, EmptyString)
  | String c t =>
      if f c then let '(a, b) := span f t in (String c a, b)
      else (EmptyString, s)
  end.

(** A literal at the start of [s]; what follows it. *)
Fixpoint strip_prefix (p s : string) : option string :=
  match p with
  | EmptyString => Some s
  | String a p' =>
      match s with
      | EmptyString => None
      | String c t => if eqc a c then strip_prefix p' t else None
      end
  end.

Fixpoint all_chars (f : ascii -> bool) (s : string) : bool :=
  match s with
  | EmptyString => true
  | String c t => f c && all_chars f t
  end.

Definition is_empty (s : string) : bool :=
  match s with EmptyString => true | _ => false end.

#[global] Arguments replace (a b)%_char s%_string.
#[global] Arguments split sep%_char s%_string.
#[global] Arguments strip_prefix (p s)%_string.

End PyStr.

(** ** Python numbers *)

Module PyNum.

Local Open Scope Z_scope.

(** [int] to [float], rounded to nearest even; [None] is Python's
    [OverflowError] (the rounded value would not be finite). *)
Definition float_of_Z (z : Z) : option float :=
  let f := SF2Prim (binary_normalize prec emax z 0 false) in
  if PrimFloat.is_infinity f then None else Some f.

#[global] Arguments float_of_Z : simpl never.

(** A number as [json.loads] returns it. *)
Inductive num : Type :=
| PyInt (z : Z)
| PyFloat (f : float).

(** [int(s)] on a string of decimal digits. *)
Definition digit_value (c : ascii) : Z := Z.of_N (N_of_ascii c) - 48.

Fixpoint int_of_digits_from (acc : Z) (s : string) : Z :=
  match s with
  | EmptyString => acc
  | String c t => int_of_digits_from (10 * acc + digit_value c) t
  end.

Definition int_of_digits (s : string) : Z := int_of_digits_from 0 s.

(** [str(z)] *)
Definition str_of_int (z : Z) : string := NilZero.string_of_int (Z.to_int z).

End PyNum.

(** ** Exceptions, results and the effect monad *)

(** The exceptions the two files can see.  [FontDownloadFailed] and
    [FontProcessingFailed] are the two [ValueError]s that [download_font]
    raises from its handlers; each carries the exception it wraps. *)
Inductive exn : Type :=
| KeyError (key : string)
| IndexError
| OverflowError
| IntDigitsError
| JSONDecodeError
| FitzError
| RequestException
| OSError
| NoFontUrl (family : string) (weight : Z)
| FontDownloadFailed (family : string) (weight : Z) (cause : exn)
| FontProcessingFailed (family : string) (weight : Z) (cause : exn).

Definition is_font_error (e : exn) : bool :=
  match e with
  | NoFontUrl _ _ | FontDownloadFailed _ _ _ | FontProcessingFailed _ _ _ => true
  | _ => false
  end.

(** A computation without side effect that returns or raises. *)
Inductive result (A : Type) : Type :=
| Ok (a : A)
| Err (e : exn).
Arguments Ok {A} a.
Arguments Err {A} e.

(** A run from a state: it returns, it raises (the state as it was when
    the exception left), or it never returns. *)
Inductive outcome (S A : Type) : Type :=
| Ret (a : A) (s : S)
| Raise (e : exn) (s : S)
| Diverge.
Arguments Ret {S A} a s.
Arguments Raise {S A} e s.
Arguments Diverge {S A}.

Definition M (S A : Type) : Type := S -> outcome S A.

Definition ret {S A} (a : A) : M S A := fun s => Ret a s.

Definition raise {S A} (e : exn) : M S A := fun s => Raise e s.

Definition bind {S A B} (m : M S A) (k : A -> M S B) : M S B :=
  fun s =>
    match m s with
    | Ret a s' => k a s'
    | Raise e s' => Raise e s'
    | Diverge => Diverge
    end.

Definition lift {S A} (r : result A) : M S A :=
  match r with
  | Ok a => ret a
  | Err e => raise e
  end.

(** [try: m  except Exception as e: h e] *)
Definition try_except {S A} (m : M S A) (h : exn -> M S A) : M S A :=
  fun s =>
    match m s with
    | Raise e s' => h e s'
    | o => o
    end.

Declare Scope py_scope.
Delimit Scope py_scope with py.
Notation "x <- m ;; k" := (bind m (fun x => k))
  (at level 100, m at next level, right associativity) : py_scope.
Notation "m ;; k" := (bind m (fun _ => k))
  (at level 100, right associativity) : py_scope.
Notation "'let?' x := r 'in' k" :=
  (match r with Ok x => k | Err e => Err e end)
  (at level 10, x name, r at level 100, k at level 200) : py_scope.

(** [for a in l: body a] *)
Fixpoint for_each {S A} (body : A -> M S unit) (l : list A) : M S unit :=
  match l with
  | [] => ret tt
  | a :: l' => bind (body a) (fun _ => for_each body l')
  end.

(** [d[key]] and [d.get(key, default)] for a key that is present
    ([Some]) or absent ([None]). *)
Definition getitem {A} (key : string) (field : option A) : result A :=
  match field with
  | Some v => Ok v
  | None => Err (KeyError key)
  end.

Definition get_default {A} (field : option A) (d : A) : A :=
  match field with
  | Some v => v
  | None => d
  end.

(** ** Data *)

(** A colour as PyMuPDF takes it: three channels. *)
Definition rgb : Type := float * float * float.

(** [(1, 1, 1)] and [(0, 0, 0)]: PyMuPDF reads the channels as floats. *)
Definition white : rgb := (1%float, 1%float, 1%float).
Definition black : rgb := (0%float, 0%float, 0%float).

(** [fitz.Rect] *)
Record rect : Type := Rect { x0 : float; y0 : float; x1 : float; y1 : float }.

Inductive font_src : Type :=
| FontFile (path : string)
| FontName (name : string).

(** The arguments of one [page.insert_text] call. *)
Record text_call : Type := TextCall {
  tc_point : float * float;
  tc_text : string;
  tc_fontsize : float;
  tc_font : font_src;
  tc_color : rgb;
  tc_render_mode : Z }.

(** What a handler has put on a page. *)
Inductive draw_op : Type :=
| DrawRect (r : rect) (stroke fill : rgb)
| InsertText (c : text_call).

(** An entry of [page.get_fonts(full=True)]: the handler reads items 0, 1
    and 3 of the tuple. *)
Record font_info : Type := FontInfo {
  fi_xref : Z;
  fi_item1 : string;
  fi_name : string }.

(** What [doc.extract_font(xref)] returns: (basename, ext, type, content). *)
Record font_buffer : Type := FontBuffer {
  fb_basename : string;
  fb_ext : string;
  fb_type : string;
  fb_content : string }.

Record page : Type := Page {
  page_fonts : list font_info;
  page_content : list draw_op }.

(** An open document: its pages, and what [extract_font] gives for an
    xref ([None]: it raises). *)
Record document : Type := Document {
  doc_pages : list page;
  doc_extract_font : Z -> option font_buffer }.

(** The world outside the process: the files on disk by path, and the
    URLs requested so far, oldest first. *)
Record world : Type := World {
  files : gmap string string;
  requests : list string }.

(** The state of one [edit_pdf] request. *)
Record st : Type := St {
  st_world : world;
  st_doc : document }.

(** One element of the decoded [edits] list: a JSON object whose keys may
    be absent, with the value types of the data model. *)
Module Edit.
Record t : Type := Make {
  pageNumber : option Z;
  originalText : option string;
  newText : option string;
  x : option PyNum.num;
  y : option PyNum.num;
  width : option PyNum.num;
  height : option PyNum.num;
  fontSize : option PyNum.num;
  color : option string;
  fontName : option string;
  fontWeight : option Z }.
End Edit.

(** The multipart request: [request.files['pdf']] and
    [request.form.get('edits')]. *)
Record request : Type := Request {
  files_pdf : option string;
  form_edits : option string }.

Record font_meta : Type := FontMeta {
  meta_type : string;
  meta_ext : string;
  meta_size : nat;
  meta_pages : list Z }.

Inductive error_body : Type :=
| Message (m : string)
| Exception (e : exn).

(** What a handler sends back. *)
Inductive response : Type :=
| SendFile (pdf : document)
| JsonError (status : Z) (error : error_body)
| JsonFonts (fonts : gmap string string) (metadata : gmap string font_meta).

Inductive http_reply : Type :=
| ConnectionError
| Response (status : Z) (body : string).

(** [GoogleFontsDownloader]: the object holds its cache directory. *)
Record GoogleFontsDownloader : Type := Downloader { cache_dir : string }.

(** [font_downloader = GoogleFontsDownloader()] *)
Definition font_downloader : GoogleFontsDownloader :=
  {| cache_dir := "fonts_cache" |}.

(** ** The environment: what the libraries and the outside world decide *)

Class Env : Type := {
  (** [pathlib]: [dir / name] as a string. *)
  path_join : string -> string -> string;
  (** [requests.get(url)], given the URLs requested before it. *)
  http_get : list string -> string -> http_reply;
  (** Whether [os.stat] on a path that is no file of the world fails with
      an error that [Path.exists] lets through (a name too long for the
      file system, a directory that cannot be searched) and not with "no
      such file". *)
  stat_raises : string -> bool;
  (** Whether [Path.write_bytes] to a path succeeds. *)
  write_ok : string -> bool;
  (** [json.loads] on the [edits] field; [None]: it raises. *)
  json_loads : string -> option (list Edit.t);
  (** [fitz.open(stream=..., filetype="pdf")]; [None]: it raises. *)
  fitz_open : string -> option document;
  (** Whether PyMuPDF accepts [page.draw_rect] on page [i] of a document. *)
  fitz_draw_rect_ok : document -> nat -> rect -> bool;
  (** Whether PyMuPDF accepts [page.insert_text] on page [i], given the
      files it can read a [fontfile] from. *)
  fitz_insert_text_ok : document -> nat -> gmap string string -> text_call -> bool;
  (** Whether [doc.save] succeeds. *)
  fitz_save_ok : document -> bool;
  (** [base64.b64encode(b).decode('utf-8')] *)
  b64encode : string -> string;
  (** [sys.get_int_max_str_digits()]: no limit ([None]), or a limit of
      640 digits, the least Python lets one set, and this many more. *)
  int_max_str_digits_above_640 : option nat }.

Local Open Scope py_scope.
Local Open Scope string_scope.
Local Open Scope Z_scope.

(** ** Python arithmetic on JSON numbers *)

Import PyNum.

(** [float(n)] *)
Definition py_float (n : num) : result float :=
  match n with
  | PyInt z =>
      match float_of_Z z with
      | Some f => Ok f
      | None => Err OverflowError
      end
  | PyFloat f => Ok f
  end.

(** [a + b]: exact on two ints, in floats otherwise. *)
Definition py_add (a b : num) : result num :=
  match a, b with
  | PyInt za, PyInt zb => Ok (PyInt (za + zb))
  | _, _ =>
      let? fa := py_float a in
      let? fb := py_float b in
      Ok (PyFloat (fa + fb)%float)
  end.

(** [a - b] *)
Definition py_sub (a b : num) : result num :=
  match a, b with
  | PyInt za, PyInt zb => Ok (PyInt (za - zb))
  | _, _ =>
      let? fa := py_float a in
      let? fb := py_float b in
      Ok (PyFloat (fa - fb)%float)
  end.

(** [a * b] *)
Definition py_mul (a b : num) : result num :=
  match a, b with
  | PyInt za, PyInt zb => Ok (PyInt (za * zb))
  | _, _ =>
      let? fa := py_float a in
      let? fb := py_float b in
      Ok (PyFloat (fa * fb)%float)
  end.

(** The literal [0.2]: the binary64 number nearest to one fifth. *)
Definition lit_0_2 : float := 0x1.999999999999ap-3%float.

(** [fitz.Rect(a, b, c, d)]: each coordinate through [float]. *)
Definition fitz_Rect (a b c d : num) : result rect :=
  let? fa := py_float a in
  let? fb := py_float b in
  let? fc := py_float c in
  let? fd := py_float d in
  Ok (Rect fa fb fc fd).

(** ** Regular expressions of the source *)

Import PyStr.

(** [re.match(r'rgb\((\d+),\s*(\d+),\s*(\d+)\)', s)]: the three groups.
    A match starts at the first character and need not reach the end. *)
Definition match_rgb (s : string) : option (string * string * string) :=
  match strip_prefix "rgb(" s with
  | None => None
  | Some s1 =>
    let '(r, s2) := span is_digit s1 in
    if is_empty r then None else
    match strip_prefix "," s2 with
    | None => None
    | Some s3 =>
      let '(_, s4) := span is_space s3 in
      let '(g, s5) := span is_digit s4 in
      if is_empty g then None else
      match strip_prefix "," s5 with
      | None => None
      | Some s6 =>
        let '(_, s7) := span is_space s6 in
        let '(b, s8) := span is_digit s7 in
        if is_empty b then None else
        match strip_prefix ")" s8 with
        | None => None
        | Some _ => Some (r, g, b)
        end
      end
    end
  end.

Definition not_rparen (c : ascii) : bool := negb (eqc c ")").

Definition gstatic : string := "https://fonts.gstatic.com/".

(** [url\((https://fonts\.gstatic\.com/[^)]+)\)] at the start of [s]:
    group 1. *)
Definition match_font_url (s : string) : option string :=
  match strip_prefix "url(" s with
  | None => None
  | Some s1 =>
    match strip_prefix gstatic s1 with
    | None => None
    | Some s2 =>
      let '(u, s3) := span not_rparen s2 in
      if is_empty u then None else
      match strip_prefix ")" s3 with
      | None => None
      | Some _ => Some (gstatic +:+ u)
      end
    end
  end.

(** [re.search] of that pattern: the leftmost match. *)
Fixpoint search_font_url (s : string) : option string :=
  match match_font_url s with
  | Some u => Some u
  | None =>
      match s with
      | EmptyString => None
      | String _ t => search_font_url t
      end
  end.

(** [l[0]] *)
Definition item0 (l : list string) : result string :=
  match l with
  | a :: _ => Ok a
  | [] => Err IndexError
  end.

(** [font_name.split(',')[0].split('-')[0].strip()] *)
Definition family_of (font_name : string) : result string :=
  let? a := item0 (split "," font_name) in
  let? b := item0 (split "-" a) in
  Ok (strip b).

(** [family not in ['Georgia', 'serif', 'sans-serif', 'Arial', 'Helvetica']] *)
Definition generic_families : list string :=
  ["Georgia"; "serif"; "sans-serif"; "Arial"; "Helvetica"].

Definition is_generic (family : string) : bool :=
  existsb (String.eqb family) generic_families.

(** ["Helvetica-Bold" if font_weight >= 700 else "Helvetica"] *)
Definition base14_font (font_weight : Z) : string :=
  if (700 <=? font_weight)%Z then "Helvetica-Bold" else "Helvetica".

Section Backend.

Context `{Env}.

(** ** [google_fonts_downloader.py] *)

(** [family.strip().replace(' ', '+')] *)
Definition normalize_family (family : string) : string :=
  replace " " "+" (strip family).

(** [f"{family}-{weight}.ttf"], on the normalized family. *)
Definition cache_key (family : string) (weight : Z) : string :=
  normalize_family family +:+ "-" +:+ str_of_int weight +:+ ".ttf".

(** [self.cache_dir / f"{family}-{weight}.ttf"] *)
Definition cache_path (self : GoogleFontsDownloader) (family : string) (weight : Z)
  : string :=
  path_join (cache_dir self) (cache_key family weight).

(** [f"https://fonts.googleapis.com/css2?family={family}:wght@{weight}&display=swap"],
    on the normalized family. *)
Definition css_url (family : string) (weight : Z) : string :=
  "https://fonts.googleapis.com/css2?family=" +:+ normalize_family family
  +:+ ":wght@" +:+ str_of_int weight +:+ "&display=swap".

(** [cache_path.exists()]: [True] for a file of the world.  For any other
    path [os.stat] fails; [exists] answers [False] when the failure is "no
    such file" or the like, and lets any other [OSError] through. *)
Definition path_exists (p : string) : M world bool :=
  fun w =>
    if bool_decide (is_Some (files w !! p)) then Ret true w
    else if stat_raises p then Raise OSError w
    else Ret false w.

(** [requests.get(url, ...)]: the request is made, then it answers or
    raises. *)
Definition requests_get (url : string) : M world (Z * string) :=
  fun w =>
    let w' := World (files w) (requests w ++ [url]) in
    match http_get (requests w) url with
    | ConnectionError => Raise RequestException w'
    | Response status body => Ret (status, body) w'
    end.

(** [response.raise_for_status()] *)
Definition raise_for_status (r : Z * string) : M world unit :=
  if (400 <=? fst r) && (fst r <? 600) then raise RequestException else ret tt.

(** [cache_path.write_bytes(content)] *)
Definition write_bytes (p content : string) : M world unit :=
  fun w =>
    if write_ok p then Ret tt (World (<[p := content]> (files w)) (requests w))
    else Raise OSError w.

Definition download_font (self : GoogleFontsDownloader) (family : string) (weight : Z)
  : M world string :=
  let cache_path := cache_path self family weight in
  cached <- path_exists cache_path;;
  if cached : bool then ret cache_path
  else
    try_except
      (css_response <- requests_get (css_url family weight);;
       raise_for_status css_response;;
       let css_text := snd css_response in
       match search_font_url css_text with
       | None => raise (NoFontUrl (normalize_family family) weight)
       | Some font_url =>
           font_response <- requests_get font_url;;
           raise_for_status font_response;;
           write_bytes cache_path (snd font_response);;
           ret cache_path
       end)
      (fun e =>
         match e with
         | RequestException =>
             raise (FontDownloadFailed (normalize_family family) weight e)
         | _ => raise (FontProcessingFailed (normalize_family family) weight e)
         end).

(** [get_font_path] *)
Definition get_font_path (self : GoogleFontsDownloader) (family : string) (weight : Z)
  : M world string :=
  download_font self family weight.

(** ** [app.py]: [edit_pdf] *)

(** [int(s)] on a string of digits: Python refuses a string longer than
    the interpreter's digit limit. *)
Definition py_int (s : string) : result Z :=
  match int_max_str_digits_above_640 with
  | Some n => if (640 + n <? String.length s)%nat then Err IntDigitsError
              else Ok (int_of_digits s)
  | None => Ok (int_of_digits s)
  end.

(** [int(group) / 255.0] *)
Definition channel (group : string) : result float :=
  let? z := py_int group in
  let? f := py_float (PyInt z) in
  Ok (f / 255)%float.

(** The colour of an edit: the three channels of a match, black
    otherwise. *)
Definition parse_color (color_rgb : string) : result rgb :=
  match match_rgb color_rgb with
  | Some (gr, gg, gb) =>
      let? r := channel gr in
      let? g := channel gg in
      let? b := channel gb in
      Ok (r, g, b)
  | None => Ok black
  end.

(** [doc[i]] (PyMuPDF, [Document.load_page]: any integer below
    [page_count] is accepted, and "while page_id is negative, page_count
    will be added to it"); an index at or past [page_count] raises.  With
    no page at all the adding never ends. *)
Definition doc_getitem (i : Z) : M st nat :=
  fun s =>
    let np := Z.of_nat (length (doc_pages (st_doc s))) in
    if np <=? i then Raise IndexError s
    else if 0 <=? i then Ret (Z.to_nat i) s
    else if np =? 0 then Diverge
    else Ret (Z.to_nat (i mod np)) s.

(** The loop of [load_page], [while page_id < 0: page_id += np], run for
    at most [fuel] tests. *)
Fixpoint add_page_count (fuel : nat) (np page_id : Z) : option Z :=
  match fuel with
  | O => None
  | S fuel' =>
      if page_id <? 0 then add_page_count fuel' np (page_id + np)
      else Some page_id
  end.

(** A page's content stream gets one more operation.  [page_fonts] and
    [doc_extract_font] stay those of the opened file: the font that
    [insert_text] registers on the page is not modelled, and no code of the
    two files reads the fonts of a document it has drawn on. *)
Definition put_op (i : nat) (op : draw_op) (d : document) : document :=
  {| doc_pages :=
       alter (fun p => Page (page_fonts p) (page_content p ++ [op])) i (doc_pages d);
     doc_extract_font := doc_extract_font d |}.

(** [page.draw_rect(rect, color=stroke, fill=fill)] on page [i]. *)
Definition draw_rect (i : nat) (r : rect) (stroke fill : rgb) : M st unit :=
  fun s =>
    if fitz_draw_rect_ok (st_doc s) i r
    then Ret tt (St (st_world s) (put_op i (DrawRect r stroke fill) (st_doc s)))
    else Raise FitzError s.

(** [page.insert_text(point, text, fontsize=, fontfile= / fontname=,
    color=, render_mode=0)] on page [i]. *)
Definition insert_text (i : nat) (point : num * num) (text : string)
    (fontsize : num) (font : font_src) (color : rgb) : M st unit :=
  px <- lift (py_float (fst point));;
  py <- lift (py_float (snd point));;
  fs <- lift (py_float fontsize);;
  let call := TextCall (px, py) text fs font color 0 in
  fun s =>
    if fitz_insert_text_ok (st_doc s) i (files (st_world s)) call
    then Ret tt (St (st_world s) (put_op i (InsertText call) (st_doc s)))
    else Raise FitzError s.

(** A computation on the world, run inside a request. *)
Definition in_world {A} (m : M world A) : M st A :=
  fun s =>
    match m (st_world s) with
    | Ret a w => Ret a (St w (st_doc s))
    | Raise e w => Raise e (St w (st_doc s))
    | Diverge => Diverge
    end.

(** The first branch of the [try] block: download the font, then insert
    the text with the downloaded file. *)
Definition google_font_text (page : nat) (point : num * num) (new_text : string)
    (font_size : num) (color : rgb) (family : string) (font_weight : Z) : M st unit :=
  font_path <- in_world (download_font font_downloader family font_weight);;
  insert_text page point new_text font_size (FontFile font_path) color.

(** The [try: ... except Exception as e: ...] block that ends the loop
    body: a downloaded font for a family that is neither empty nor
    generic, a Base14 font otherwise and after any exception. *)
Definition render_text (page : nat) (point : num * num) (new_text : string)
    (font_size : num) (color : rgb) (family : string) (font_weight : Z) : M st unit :=
  try_except
    (if negb (is_empty family) && negb (is_generic family) then
       google_font_text page point new_text font_size color family font_weight
     else
       let fontname := base14_font font_weight in
       insert_text page point new_text font_size (FontName fontname) color)
    (fun e =>
       let fontname := base14_font font_weight in
       insert_text page point new_text font_size (FontName fontname) color).

(** The body of [for edit in edits:]. *)
Definition apply_edit (edit : Edit.t) : M st unit :=
  pn <- lift (getitem "pageNumber" (Edit.pageNumber edit));;
  let page_num := pn - 1 in
  page <- doc_getitem page_num;;
  let old_text := get_default (Edit.originalText edit) "" in
  new_text <- lift (getitem "newText" (Edit.newText edit));;
  x <- lift (getitem "x" (Edit.x edit));;
  y <- lift (getitem "y" (Edit.y edit));;
  width <- lift (getitem "width" (Edit.width edit));;
  height <- lift (getitem "height" (Edit.height edit));;
  font_size <- lift (getitem "fontSize" (Edit.fontSize edit));;
  let color_rgb := get_default (Edit.color edit) "rgb(0, 0, 0)" in
  color <- lift (parse_color color_rgb);;
  let font_name := get_default (Edit.fontName edit) "" in
  let font_weight := get_default (Edit.fontWeight edit) 400 in
  family <- lift (family_of font_name);;
  xw <- lift (py_add x width);;
  yh <- lift (py_add y height);;
  rect <- lift (fitz_Rect x y xw yh);;
  draw_rect page rect white white;;
  yh' <- lift (py_add y height);;
  fifth <- lift (py_mul font_size (PyFloat lit_0_2));;
  text_y <- lift (py_sub yh' fifth);;
  render_text page (x, text_y) new_text font_size color family font_weight.

(** The document a request works on, from opening to saving. *)
Definition with_doc (doc : document) (m : M st unit) : M world document :=
  fun w =>
    match m (St w doc) with
    | Ret _ s => Ret (st_doc s) (st_world s)
    | Raise e s => Raise e (st_world s)
    | Diverge => Diverge
    end.

(** [doc.save(output_buffer)] *)
Definition save (doc : document) : M world unit :=
  if fitz_save_ok doc then ret tt else raise FitzError.

Definition edit_pdf (req : request) : M world response :=
  try_except
    (match files_pdf req with
     | None => ret (JsonError 400 (Message "No PDF file provided"))
     | Some pdf_bytes =>
         let edits_json := form_edits req in
         if is_empty (get_default edits_json "")
         then ret (JsonError 400 (Message "No edits provided"))
         else
           edits <- lift (match json_loads (get_default edits_json "") with
                          | Some l => Ok l
                          | None => Err JSONDecodeError
                          end);;
           doc <- lift (match fitz_open pdf_bytes with
                        | Some d => Ok d
                        | None => Err FitzError
                        end);;
           doc' <- with_doc doc (for_each apply_edit edits);;
           save doc';;
           ret (SendFile doc')
     end)
    (fun e => ret (JsonError 500 (Exception e))).

(** ** [app.py]: [extract_fonts] *)

(** The body of [for font_info in font_list:] on page [page_num]
    (0-based), on the two dictionaries built so far.  [extract_font]
    returns a 4-tuple: [font_buffer] itself is true, [font_buffer[0]] is the
    basename, [font_buffer[-1]] the content, and [len(font_buffer) > 1], so
    the ['bin'] default of [ext] is never taken.  An exception of
    [extract_font] is caught and the font is skipped. *)
Definition extract_one (doc : document) (page_num : nat)
    (acc : gmap string string * gmap string font_meta) (font_info : font_info)
  : gmap string string * gmap string font_meta :=
  let '(fonts, metadata) := acc in
  let xref := fi_xref font_info in
  let font_name := fi_name font_info in
  let font_type := fi_item1 font_info in
  if bool_decide (is_Some (fonts !! font_name)) then acc
  else
    match doc_extract_font doc xref with
    | None => acc
    | Some font_buffer =>
        if is_empty (fb_basename font_buffer) then acc
        else
          let font_data := fb_content font_buffer in
          if is_empty font_data then acc
          else
            (<[font_name := b64encode font_data]> fonts,
             <[font_name := {| meta_type := font_type;
                               meta_ext := fb_ext font_buffer;
                               meta_size := String.length font_data;
                               meta_pages := [Z.of_nat page_num + 1] |}]> metadata)
    end.

(** [for page_num in range(len(doc)):], from page [page_num] on. *)
Fixpoint extract_pages (doc : document) (page_num : nat) (pages : list page)
    (acc : gmap string string * gmap string font_meta)
  : gmap string string * gmap string font_meta :=
  match pages with
  | [] => acc
  | p :: rest =>
      extract_pages doc (S page_num) rest
        (fold_left (extract_one doc page_num) (page_fonts p) acc)
  end.

Definition extract_fonts (req : request) : response :=
  match files_pdf req with
  | None => JsonError 400 (Message "No PDF file provided")
  | Some pdf_bytes =>
      match fitz_open pdf_bytes with
      | None => JsonError 500 (Exception FitzError)
      | Some doc =>
          let '(fonts, metadata) := extract_pages doc 0 (doc_pages doc) (∅, ∅) in
          JsonFonts fonts metadata
      end
  end.

End Backend.

(** ** The specification's own words, as definitions *)

(** "The text before the first [c]": all of [s] when it has no [c]. *)
Fixpoint before_first (c : ascii) (s : string) : string :=
  match s with
  | EmptyString => EmptyString
  | String a t => if eqc a c then EmptyString else String a (before_first c t)
  end.
#[global] Arguments before_first c%_char s%_string.

(** A non-empty run of decimal digits; a run of white space. *)
Definition digits (s : string) : Prop :=
  all_chars is_digit s = true /\ s <> EmptyString.

Definition spaces (s : string) : Prop := all_chars is_space s = true.

(** What the pattern [rgb\((\d+),\s*(\d+),\s*(\d+)\)] denotes at the start
    of [s], with its three groups. *)
Definition rgb_prefix (s r g b : string) : Prop :=
  exists ws1 ws2 rest : string,
    s = "rgb(" +:+ r +:+ "," +:+ ws1 +:+ g +:+ "," +:+ ws2 +:+ b +:+ ")" +:+ rest
    /\ digits r /\ digits g /\ digits b /\ spaces ws1 /\ spaces ws2.

(** "Exactly of the form rgb(R, G, B) with R, G, B integers in 0-255". *)
Definition exact_rgb (s : string) (R G B : Z) : Prop :=
  (0 <= R <= 255) /\ (0 <= G <= 255) /\ (0 <= B <= 255)
  /\ s = "rgb(" +:+ str_of_int R +:+ ", " +:+ str_of_int G +:+ ", "
         +:+ str_of_int B +:+ ")".

(** The white-out box [(x, y, x + width, y + height)]. *)
Definition whiteout_rect (x y width height : num) : result rect :=
  let? xw := py_add x width in
  let? yh := py_add y height in
  fitz_Rect x y xw yh.

(** The baseline [y + height - fontSize * 0.2]. *)
Definition text_baseline (y height font_size : num) : result num :=
  let? yh := py_add y height in
  let? fifth := py_mul font_size (PyFloat lit_0_2) in
  py_sub yh fifth.

(** An instruction with its optional keys filled in. *)
Definition with_defaults (e : Edit.t) : Edit.t :=
  {| Edit.pageNumber := Edit.pageNumber e;
     Edit.originalText := Some (get_default (Edit.originalText e) "");
     Edit.newText := Edit.newText e;
     Edit.x := Edit.x e;
     Edit.y := Edit.y e;
     Edit.width := Edit.width e;
     Edit.height := Edit.height e;
     Edit.fontSize := Edit.fontSize e;
     Edit.color := Some (get_default (Edit.color e) "rgb(0, 0, 0)");
     Edit.fontName := Some (get_default (Edit.fontName e) "");
     Edit.fontWeight := Some (get_default (Edit.fontWeight e) 400) |}.

(** One of the seven keys read with [edit[...]] is absent. *)
Definition missing_required (e : Edit.t) : bool :=
  negb (bool_decide (is_Some (Edit.pageNumber e)))
  || negb (bool_decide (is_Some (Edit.newText e)))
  || negb (bool_decide (is_Some (Edit.x e)))
  || negb (bool_decide (is_Some (Edit.y e)))
  || negb (bool_decide (is_Some (Edit.width e)))
  || negb (bool_decide (is_Some (Edit.height e)))
  || negb (bool_decide (is_Some (Edit.fontSize e))).

(** The same instruction for another page. *)
Definition on_page (p : Z) (e : Edit.t) : Edit.t :=
  {| Edit.pageNumber := Some p;
     Edit.originalText := Edit.originalText e;
     Edit.newText := Edit.newText e;
     Edit.x := Edit.x e;
     Edit.y := Edit.y e;
     Edit.width := Edit.width e;
     Edit.height := Edit.height e;
     Edit.fontSize := Edit.fontSize e;
     Edit.color := Edit.color e;
     Edit.fontName := Edit.fontName e;
     Edit.fontWeight := Edit.fontWeight e |}.

(** The fonts a document references, in the order the handler meets
    them: page by page, each with its 0-based page number. *)
Fixpoint occurrences (page_num : nat) (pages : list page) : list (nat * font_info) :=
  match pages with
  | [] => []
  | p :: rest => map (pair page_num) (page_fonts p) ++ occurrences (S page_num) rest
  end.

(** An occurrence whose extraction gives a named, non-empty font. *)
Definition extracted (doc : document) (fi : font_info) : option font_buffer :=
  match doc_extract_font doc (fi_xref fi) with
  | Some buf =>
      if is_empty (fb_basename buf) || is_empty (fb_content buf) then None
      else Some buf
  | None => None
  end.

(** The first occurrence of [name] that extracts. *)
Fixpoint first_extracted (doc : document) (name : string)
    (occs : list (nat * font_info)) : option (nat * font_info * font_buffer) :=
  match occs with
  | [] => None
  | (pn, fi) :: rest =>
      if String.eqb (fi_name fi) name then
        match extracted doc fi with
        | Some buf => Some (pn, fi, buf)
        | None => first_extracted doc name rest
        end
      else first_extracted doc name rest
  end.

(** The first occurrence of [name], extracted or not. *)
Fixpoint first_occurrence (name : string) (occs : list (nat * font_info))
  : option (nat * font_info) :=
  match occs with
  | [] => None
  | (pn, fi) :: rest =>
      if String.eqb (fi_name fi) name then Some (pn, fi)
      else first_occurrence name rest
  end.

(** The page (0-based) where the name is "first seen". *)
Definition first_seen (name : string) (occs : list (nat * font_info)) : option nat :=
  fst <$> first_occurrence name occs.

Definition meta_of `{Env} (o : nat * font_info * font_buffer) : font_meta :=
  let '(pn, fi, buf) := o in
  {| meta_type := fi_item1 fi;
     meta_ext := fb_ext buf;
     meta_size := String.length (fb_content buf);
     meta_pages := [Z.of_nat pn + 1] |}.

Definition data_of `{Env} (o : nat * font_info * font_buffer) : string :=
  b64encode (fb_content (snd o)).

(** ** Predicates of the proofs *)

(** What stops a greedy run: the end of the string, or a character
    outside the class. *)
Definition stops (f : ascii -> bool) (s : string) : Prop :=
  match s with
  | EmptyString => True
  | String c _ => f c = false
  end.

(** What the numerals of 0..255 are checked for, one by one. *)
Definition byte_ok (z : Z) : bool :=
  all_chars is_digit (str_of_int z)
  && negb (is_empty (str_of_int z))
  && (int_of_digits (str_of_int z) =? z)
  && (String.length (str_of_int z) <=? 3)%nat
  && bool_decide (is_Some (float_of_Z z)).

Definition page_count (s : st) : nat := length (doc_pages (st_doc s)).

(** A step keeps the number of pages, and can only fail to return on a
    document without pages. *)
Definition keeps_pages {A} (m : M st A) : Prop :=
  forall s : st,
    match m s with
    | Ret _ s' | Raise _ s' => page_count s' = page_count s
    | Diverge => page_count s = 0%nat
    end.

(** A step lets no error of the font downloader out. *)
Definition hides_font_errors {A} (m : M st A) : Prop :=
  forall (s s' : st) (e : exn), m s = Raise e s' -> is_font_error e = false.

(** ** Concrete environments and inputs *)

(** An environment whose decoder yields [edits], whose parser yields [doc],
    whose network is [net], and where PyMuPDF and the disk accept
    everything. *)
Definition sample_env (edits : list Edit.t) (doc : document)
    (net : list string -> string -> http_reply) : Env :=
  {| path_join := fun d n => d +:+ "/" +:+ n;
     http_get := net;
     stat_raises := fun _ => false;
     write_ok := fun _ => true;
     json_loads := fun _ => Some edits;
     fitz_open := fun _ => Some doc;
     fitz_draw_rect_ok := fun _ _ _ => true;
     fitz_insert_text_ok := fun _ _ _ _ => true;
     fitz_save_ok := fun _ => true;
     b64encode := fun s => s;
     int_max_str_digits_above_640 := Some 3660%nat |}.

(** No network at all. *)
Definition offline : list string -> string -> http_reply :=
  fun _ _ => ConnectionError.

(** A font service that answers every stylesheet request with one rule and
    every font request with four bytes. *)
Definition font_service : list string -> string -> http_reply :=
  fun _ url =>
    match strip_prefix gstatic url with
    | Some _ => Response 200 "OTTO"
    | None =>
        Response 200
          "@font-face { src: url(https://fonts.gstatic.com/s/rubik/v1/a.ttf) format('truetype'); }"
    end.

Definition blank_page : page := Page [] [].

Definition no_fonts : Z -> option font_buffer := fun _ => None.

Definition one_page_doc : document := Document [blank_page] no_fonts.

Definition three_page_doc : document :=
  Document [blank_page; blank_page; blank_page] no_fonts.

(** An instruction with every key present. *)
Definition sample_edit (page_number : Z) (font_name : string) : Edit.t :=
  {| Edit.pageNumber := Some page_number;
     Edit.originalText := Some "old";
     Edit.newText := Some "Hello";
     Edit.x := Some (PyInt 10);
     Edit.y := Some (PyFloat 20);
     Edit.width := Some (PyInt 100);
     Edit.height := Some (PyFloat 12);
     Edit.fontSize := Some (PyInt 10);
     Edit.color := Some "rgb(255, 128, 0)";
     Edit.fontName := Some font_name;
     Edit.fontWeight := Some 700 |}.

Definition sample_request : request :=
  {| files_pdf := Some "%PDF-1.7"; form_edits := Some "[...]" |}.

Definition empty_world : world := World ∅ [].

(** A document whose first page names Arial without embedding it (the
    extraction gives no bytes) and whose second page embeds a font of the
    same name under another xref. *)
Definition two_arials : document :=
  {| doc_pages :=
       [Page [FontInfo 5 "n/a" "Arial"] []; Page [FontInfo 9 "ttf" "Arial"] []];
     doc_extract_font := fun xref =>
       if xref =? 5 then Some (FontBuffer "Arial" "n/a" "TrueType" "")
       else if xref =? 9 then Some (FontBuffer "Arial" "ttf" "TrueType" "OTTO")
       else None |}.

(** What [sample_edit] puts on a blank page, with the built-in bold font. *)
Definition sample_ops (font : font_src) : list draw_op :=
  [DrawRect (Rect 10 20 110 32) white white;
   InsertText (TextCall (10%float, 30%float) "Hello" 10 font
                 (1%float, (128 / 255)%float, 0%float) 0)].

Definition edited_doc (font : font_src) : document :=
  Document [Page [] (sample_ops font)] no_fonts.

Definition page0_env : Env := sample_env [sample_edit 0 "Arial"] one_page_doc offline.
Definition page2_env : Env := sample_env [sample_edit 2 "Arial"] one_page_doc offline.
Definition rubik_offline_env : Env :=
  sample_env [sample_edit 1 "Rubik-Bold, Georgia"] one_page_doc offline.
Definition rubik_online_env : Env :=
  sample_env [sample_edit 1 "Rubik-Bold, Georgia"] one_page_doc font_service.
Definition arial_env : Env := sample_env [sample_edit 1 "Arial"] one_page_doc offline.

(** [sample_edit] without its [newText]. *)
Definition no_text_edit : Edit.t :=
  {| Edit.pageNumber := Some 1;
     Edit.originalText := None;
     Edit.newText := None;
     Edit.x := Some (PyInt 10);
     Edit.y := Some (PyFloat 20);
     Edit.width := Some (PyInt 100);
     Edit.height := Some (PyFloat 12);
     Edit.fontSize := Some (PyInt 10);
     Edit.color := None;
     Edit.fontName := None;
     Edit.fontWeight := None |}.

Definition no_text_env : Env :=
  sample_env [sample_edit 1 "Arial"; no_text_edit] one_page_doc offline.

Definition two_arials_env : Env := sample_env [] two_arials offline.

Definition rubik_css_url : string :=
  "https://fonts.googleapis.com/css2?family=Rubik:wght@700&display=swap".

Definition rubik_path : string := "fonts_cache/Rubik-700.ttf".

Definition rubik_world : world :=
  World {[ rubik_path := "OTTO" ]}
    [rubik_css_url; "https://fonts.gstatic.com/s/rubik/v1/a.ttf"].

(** An instruction with its seven required keys and no other. *)
Definition plain_edit : Edit.t :=
  {| Edit.pageNumber := Some 1;
     Edit.originalText := None;
     Edit.newText := Some "Hello";
     Edit.x := Some (PyInt 10);
     Edit.y := Some (PyFloat 20);
     Edit.width := Some (PyInt 100);
     Edit.height := Some (PyFloat 12);
     Edit.fontSize := Some (PyInt 10);
     Edit.color := None;
     Edit.fontName := None;
     Edit.fontWeight := None |}.

(** What [plain_edit] puts on a blank page: the text in black, in
    Helvetica. *)
Definition plain_ops : list draw_op :=
  [DrawRect (Rect 10 20 110 32) white white;
   InsertText (TextCall (10%float, 30%float) "Hello" 10 (FontName "Helvetica")
                 black 0)].

(** A document without pages, and a request on it whose one instruction
    has page number 0 and no [newText]. *)
Definition pageless_doc : document := Document [] no_fonts.

Definition pageless_env : Env :=
  sample_env [on_page 0 no_text_edit] pageless_doc offline.

(** [three_page_doc] after [sample_edit] on its last page. *)
Definition last_page_edited : document :=
  Document [blank_page; blank_page; Page [] (sample_ops (FontName "Helvetica-Bold"))]
    no_fonts.

(** ** Definitions of the further properties *)

(** What the pattern [url\((https://fonts\.gstatic\.com/[^)]+)\)] denotes
    at the start of [s], with its group. *)
Definition font_url_at (s u : string) : Prop :=
  exists body post : string,
    s = "url(" +:+ u +:+ ")" +:+ post /\ u = gstatic +:+ body
    /\ body <> EmptyString /\ all_chars not_rparen body = true.

(** The world after a step, seen from the world before it: every file is
    still there with its content, and the requests made before are
    followed by the new ones. *)
Definition world_grows (w w' : world) : Prop :=
  files w ⊆ files w' /\ exists l : list string, requests w' = (requests w ++ l)%list.

(** A step relates the state it starts from to the state it ends in,
    whether it returns or raises. *)
Definition preserves {A} (R : st -> st -> Prop) (m : M st A) : Prop :=
  forall s : st,
    match m s with
    | Ret _ s' | Raise _ s' => R s s'
    | Diverge => True
    end.

(** A page with the same fonts and with operations added after the ones
    it had. *)
Definition page_extends (p p' : page) : Prop :=
  page_fonts p' = page_fonts p
  /\ exists ops : list draw_op, page_content p' = (page_content p ++ ops)%list.

(** The same document, page by page, with operations added. *)
Definition doc_extends (d d' : document) : Prop :=
  doc_extract_font d' = doc_extract_font d
  /\ Forall2 page_extends (doc_pages d) (doc_pages d').

(** A step that leaves the world alone and adds to the document. *)
Definition st_quiet (s s' : st) : Prop :=
  st_world s' = st_world s /\ doc_extends (st_doc s) (st_doc s').

(** A step that lets the world grow and adds to the document. *)
Definition st_grows (s s' : st) : Prop :=
  world_grows (st_world s) (st_world s') /\ doc_extends (st_doc s) (st_doc s').

(** The number of operations on all the pages of a document. *)
Definition total_ops (d : document) : nat :=
  sum_list_with (fun p => length (page_content p)) (doc_pages d).

(** What one instruction has drawn: the page (0-based), the rectangle and
    the text call. *)
Definition drawing : Type := nat * rect * text_call.

(** The drawing is the one of instruction [e] on a document of [np] pages:
    on the page that [pageNumber - 1] selects, the white-out box of the
    instruction's [x], [y], [width] and [height], and its [newText]. *)
Definition draws (np : nat) (e : Edit.t) (d : drawing) : Prop :=
  let '(i, r, call) := d in
  exists (pn : Z) (x y width height : num),
    Edit.pageNumber e = Some pn
    /\ (i < np)%nat /\ Z.of_nat i = (pn - 1) mod Z.of_nat np
    /\ Edit.newText e = Some (tc_text call)
    /\ Edit.x e = Some x /\ Edit.y e = Some y /\ Edit.width e = Some width
    /\ Edit.height e = Some height
    /\ whiteout_rect x y width height = Ok r.

(** The operations that a run of drawings puts on page [j], in order: for
    each drawing on that page, its rectangle and then its text. *)
Definition ops_on (j : nat) (steps : list drawing) : list draw_op :=
  flat_map
    (fun d : drawing =>
       let '(i, r, call) := d in
       if Nat.eqb i j then [DrawRect r white white; InsertText call] else [])
    steps.

(** The family [apply_edit] derives for an instruction. *)
Definition edit_family (e : Edit.t) : string :=
  strip (before_first "-" (before_first "," (get_default (Edit.fontName e) ""))).

(** The instruction takes the [else] branch: its family is empty or one
    of the generic names. *)
Definition uses_base14 (e : Edit.t) : bool :=
  is_empty (edit_family e) || is_generic (edit_family e).

(** A run of [n] zeros, and a colour whose red channel is 1 followed by
    400 zeros. *)
Fixpoint zeros (n : nat) : string :=
  match n with
  | O => EmptyString
  | S n' => String "0" (zeros n')
  end.

Definition huge_numeral : string := String "1" (zeros 400).

Definition huge_color : string := "rgb(" +:+ huge_numeral +:+ ", 0, 0)".

(** [sample_edit] for page 1 in that colour. *)
Definition huge_color_edit : Edit.t :=
  {| Edit.pageNumber := Some 1;
     Edit.originalText := None;
     Edit.newText := Some "Hello";
     Edit.x := Some (PyInt 10);
     Edit.y := Some (PyFloat 20);
     Edit.width := Some (PyInt 100);
     Edit.height := Some (PyFloat 12);
     Edit.fontSize := Some (PyInt 10);
     Edit.color := Some huge_color;
     Edit.fontName := None;
     Edit.fontWeight := None |}.


(** The state of a request on [one_page_doc] before its first
    instruction, and after "Hello" has been written on the page with the
    downloaded Rubik. *)
Definition start_state : st := St empty_world one_page_doc.

Definition rubik_state : st :=
  St rubik_world
    (put_op 0
       (InsertText
          (TextCall (10%float, 30%float) "Hello" 10 (FontFile rubik_path) black 0))
       one_page_doc).

(** A request without its [pdf] file. *)
Definition no_pdf_request : request :=
  {| files_pdf := None; form_edits := Some "[...]" |}.

(** * Properties *)

(** ** Strings *)

Lemma append_nil (s : string) : EmptyString +:+ s = s.
Proof. reflexivity. Qed.

Lemma append_String (a : ascii) (s t : string) :
  String a s +:+ t = String a (s +:+ t).
Proof. reflexivity. Qed.

Ltac push_append := rewrite ?append_nil, ?append_String in *.

Lemma item0_split (c : ascii) (s : string) :
  item0 (split c s) = Ok (before_first c s).
Proof.
  induction s as [|a t IH]; simpl; [reflexivity|].
  destruct (eqc a c); [reflexivity|].
  destruct (split c t) as [|h r]; simpl in *; [discriminate|].
  injection IH as ->. reflexivity.
Qed.

Lemma strip_prefix_app (p s : string) : strip_prefix p (p +:+ s) = Some s.
Proof.
  induction p as [|a p IH]; push_append; simpl; [reflexivity|].
  unfold eqc. rewrite Ascii.eqb_refl. exact IH.
Qed.

Lemma strip_prefix_Some (p s r : string) :
  strip_prefix p s = Some r -> s = p +:+ r.
Proof.
  revert s; induction p as [|a p IH]; intros s Hs; push_append; simpl in *.
  - congruence.
  - destruct s as [|c t]; [discriminate|].
    unfold eqc in Hs. destruct (Ascii.eqb a c) eqn:E; [|discriminate].
    apply Ascii.eqb_eq in E. subst c. f_equal. apply IH, Hs.
Qed.

Lemma span_app (f : ascii -> bool) (a b : string) :
  all_chars f a = true -> stops f b -> span f (a +:+ b) = (a, b).
Proof.
  intros Ha Hb. induction a as [|c a IH]; push_append; simpl in *.
  - destruct b as [|c b]; simpl in *; [reflexivity|]. rewrite Hb. reflexivity.
  - apply andb_prop in Ha as [Hc Ha]. rewrite Hc, (IH Ha). reflexivity.
Qed.

Lemma span_spec (f : ascii -> bool) (s a b : string) :
  span f s = (a, b) -> s = a +:+ b /\ all_chars f a = true /\ stops f b.
Proof.
  revert a b; induction s as [|c t IH]; intros a b Hs; simpl in *.
  - injection Hs as <- <-. repeat split.
  - destruct (f c) eqn:Hc.
    + destruct (span f t) as [a' b'] eqn:Ht. injection Hs as <- <-.
      destruct (IH _ _ eq_refl) as (-> & Hall & Hstop).
      push_append. simpl. rewrite Hc. repeat split; assumption.
    + injection Hs as <- <-. push_append. simpl. repeat split; assumption.
Qed.

Lemma is_empty_true (s : string) : is_empty s = true <-> s = EmptyString.
Proof. destruct s; simpl; split; congruence. Qed.

Lemma is_empty_false (s : string) : is_empty s = false <-> s <> EmptyString.
Proof. destruct s; simpl; split; congruence. Qed.

Lemma digit_not_space (c : ascii) : is_digit c = true -> is_space c = false.
Proof.
  destruct c as [[] [] [] [] [] [] [] []]; vm_compute; congruence.
Qed.

Lemma digits_stop_spaces (g rest : string) : digits g -> stops is_space (g +:+ rest).
Proof.
  intros [Hall Hne]. destruct g as [|c g]; [congruence|].
  push_append. simpl in *. apply andb_prop in Hall as [Hc _].
  apply digit_not_space, Hc.
Qed.

Lemma append_assoc (a b c : string) : (a +:+ b) +:+ c = a +:+ (b +:+ c).
Proof.
  induction a as [|x a IH]; push_append; [reflexivity|]. f_equal. exact IH.
Qed.

(** The matcher finds a match whenever the pattern has one. *)
Lemma match_rgb_complete (s r g b : string) :
  rgb_prefix s r g b -> match_rgb s = Some (r, g, b).
Proof.
  intros (ws1 & ws2 & rest & -> & Hr & Hg & Hb & Hw1 & Hw2).
  unfold match_rgb.
  rewrite strip_prefix_app.
  rewrite (span_app is_digit r); [|apply Hr|reflexivity].
  destruct Hr as [_ Hr]. apply is_empty_false in Hr. rewrite Hr.
  rewrite strip_prefix_app.
  rewrite (span_app is_space ws1); [|exact Hw1|apply digits_stop_spaces, Hg].
  rewrite (span_app is_digit g); [|apply Hg|reflexivity].
  destruct Hg as [_ Hg]. apply is_empty_false in Hg. rewrite Hg.
  rewrite strip_prefix_app.
  rewrite (span_app is_space ws2); [|exact Hw2|apply digits_stop_spaces, Hb].
  rewrite (span_app is_digit b); [|apply Hb|reflexivity].
  destruct Hb as [_ Hb]. apply is_empty_false in Hb. rewrite Hb.
  rewrite strip_prefix_app. reflexivity.
Qed.

(** Whatever the matcher returns is a match of the pattern. *)
Lemma match_rgb_sound (s r g b : string) :
  match_rgb s = Some (r, g, b) -> rgb_prefix s r g b.
Proof.
  unfold match_rgb. intros Hm.
  destruct (strip_prefix "rgb(" s) as [s1|] eqn:E1; [|discriminate].
  destruct (span is_digit s1) as [r' s2] eqn:E2.
  destruct (is_empty r') eqn:Er; [discriminate|].
  destruct (strip_prefix "," s2) as [s3|] eqn:E3; [|discriminate].
  destruct (span is_space s3) as [w1 s4] eqn:E4.
  destruct (span is_digit s4) as [g' s5] eqn:E5.
  destruct (is_empty g') eqn:Eg; [discriminate|].
  destruct (strip_prefix "," s5) as [s6|] eqn:E6; [|discriminate].
  destruct (span is_space s6) as [w2 s7] eqn:E7.
  destruct (span is_digit s7) as [b' s8] eqn:E8.
  destruct (is_empty b') eqn:Eb; [discriminate|].
  destruct (strip_prefix ")" s8) as [s9|] eqn:E9; [|discriminate].
  injection Hm as <- <- <-.
  apply strip_prefix_Some in E1, E3, E6, E9.
  apply span_spec in E2 as (-> & Hr & _), E4 as (-> & Hw1 & _),
    E5 as (-> & Hg & _), E7 as (-> & Hw2 & _), E8 as (-> & Hb & _).
  apply is_empty_false in Er, Eg, Eb.
  exists w1, w2, s9. subst.
  repeat split; assumption.
Qed.


(** ** Colours *)

(** A property checked on each of 0..255 holds on the whole range. *)
Lemma on_bytes (P : Z -> bool) :
  forallb P (map Z.of_nat (seq 0 256)) = true ->
  forall z : Z, 0 <= z <= 255 -> P z = true.
Proof.
  intros Hall z Hz. rewrite forallb_forall in Hall. apply Hall.
  apply in_map_iff. exists (Z.to_nat z). split; [lia|].
  apply in_seq. lia.
Qed.

Lemma byte_numeral (z : Z) :
  0 <= z <= 255 ->
  digits (str_of_int z) /\ int_of_digits (str_of_int z) = z
  /\ (String.length (str_of_int z) <= 3)%nat /\ is_Some (float_of_Z z).
Proof.
  intros Hz. pose proof (on_bytes byte_ok eq_refl z Hz) as Hok.
  unfold byte_ok in Hok.
  repeat (apply andb_prop in Hok as [Hok ?]).
  repeat split.
  - assumption.
  - apply is_empty_false. destruct (is_empty (str_of_int z)); [discriminate|reflexivity].
  - lia.
  - apply Nat.leb_le. assumption.
  - match goal with
    | Hb : bool_decide _ = true |- _ => apply bool_decide_eq_true in Hb; exact Hb
    end.
Qed.

Section Colours.

Context `{Env}.

Lemma py_int_short (s : string) :
  (String.length s <= 640)%nat -> py_int s = Ok (int_of_digits s).
Proof.
  intros Hlen. unfold py_int.
  destruct int_max_str_digits_above_640 as [n|]; [|reflexivity].
  destruct (Nat.ltb_spec (640 + n) (String.length s)); [lia|reflexivity].
Qed.

Lemma channel_short (s : string) (f : float) :
  (String.length s <= 640)%nat ->
  float_of_Z (int_of_digits s) = Some f ->
  channel s = Ok (f / 255)%float.
Proof.
  intros Hlen Hf. unfold channel. rewrite (py_int_short _ Hlen).
  simpl. rewrite Hf. reflexivity.
Qed.

Lemma exact_rgb_prefix (s : string) (R G B : Z) :
  exact_rgb s R G B ->
  rgb_prefix s (str_of_int R) (str_of_int G) (str_of_int B).
Proof.
  intros (HR & HG & HB & ->).
  exists " ", " ", "".
  destruct (byte_numeral R HR) as (? & _), (byte_numeral G HG) as (? & _),
    (byte_numeral B HB) as (? & _).
  split; [reflexivity|].
  do 3 (split; [assumption|]).
  split; reflexivity.
Qed.

(** C2, as the code has it: a colour string that starts with a match of
    [rgb\((\d+),\s*(\d+),\s*(\d+)\)] gives the three groups divided by
    255.0, whatever follows the match, whatever white space follows each
    comma and whatever the value of the numbers, as long as each is
    written with at most 640 digits and converts to a float; a string that
    does not start with such a match gives black, without an error.  The
    strings of the exact form "rgb(R, G, B)" with R, G, B in 0..255 are
    among the first, and the examples of the specification hold. *)
Theorem parse_color_follows_the_pattern (color_rgb : string) :
  (forall (r g b : string) (fr fg fb : float),
      rgb_prefix color_rgb r g b ->
      (String.length r <= 640)%nat -> (String.length g <= 640)%nat ->
      (String.length b <= 640)%nat ->
      float_of_Z (int_of_digits r) = Some fr ->
      float_of_Z (int_of_digits g) = Some fg ->
      float_of_Z (int_of_digits b) = Some fb ->
      parse_color color_rgb = Ok ((fr / 255)%float, (fg / 255)%float, (fb / 255)%float))
  /\ ((forall r g b : string, ~ rgb_prefix color_rgb r g b) ->
      parse_color color_rgb = Ok black)
  /\ (forall R G B : Z,
        exact_rgb color_rgb R G B ->
        exists fr fg fb : float,
          float_of_Z R = Some fr /\ float_of_Z G = Some fg /\ float_of_Z B = Some fb
          /\ parse_color color_rgb
             = Ok ((fr / 255)%float, (fg / 255)%float, (fb / 255)%float))
  /\ parse_color "rgb(0, 0, 0)" = Ok (0%float, 0%float, 0%float)
  /\ (exists g : float,
        parse_color "rgb(255, 128, 0)" = Ok (1%float, g, 0%float)
        /\ (501 / 1000 <? g)%float = true /\ (g <? 503 / 1000)%float = true).
Proof.
  assert (Hmatch : forall s r g b fr fg fb,
             rgb_prefix s r g b ->
             (String.length r <= 640)%nat -> (String.length g <= 640)%nat ->
             (String.length b <= 640)%nat ->
             float_of_Z (int_of_digits r) = Some fr ->
             float_of_Z (int_of_digits g) = Some fg ->
             float_of_Z (int_of_digits b) = Some fb ->
             parse_color s
             = Ok ((fr / 255)%float, (fg / 255)%float, (fb / 255)%float)).
  { intros s r g b fr fg fb Hp Lr Lg Lb Fr Fg Fb. unfold parse_color.
    rewrite (match_rgb_complete _ _ _ _ Hp).
    rewrite (channel_short r fr Lr Fr), (channel_short g fg Lg Fg),
      (channel_short b fb Lb Fb).
    reflexivity. }
  split; [exact (Hmatch color_rgb)|].
  split.
  { intros Hnone. unfold parse_color.
    destruct (match_rgb color_rgb) as [[[r g] b]|] eqn:E; [|reflexivity].
    exfalso. exact (Hnone r g b (match_rgb_sound _ _ _ _ E)). }
  split.
  { intros R G B Hex. pose proof (exact_rgb_prefix _ _ _ _ Hex) as Hp.
    destruct Hex as (HR & HG & HB & _).
    destruct (byte_numeral R HR) as (_ & IR & LR & [fr Fr]).
    destruct (byte_numeral G HG) as (_ & IG & LG & [fg Fg]).
    destruct (byte_numeral B HB) as (_ & IB & LB & [fb Fb]).
    exists fr, fg, fb. repeat split; try assumption.
    apply (Hmatch _ _ _ _ _ _ _ Hp); try lia; congruence. }
  split.
  { apply (Hmatch _ "0" "0" "0" 0%float 0%float 0%float);
      try (simpl; lia); try reflexivity.
    exists " ", " ", "". repeat split; discriminate. }
  exists (128 / 255)%float. split; [|split; reflexivity].
  apply (Hmatch _ "255" "128" "0" 255%float 128%float 0%float);
    try (simpl; lia); try reflexivity.
  exists " ", " ", "". repeat split; discriminate.
Qed.

End Colours.

(** ** The font cache *)

Section Cache.

Context `{Env}.

Lemma download_font_cached (self : GoogleFontsDownloader) (family : string)
    (weight : Z) (w : world) :
  is_Some (files w !! cache_path self family weight) ->
  download_font self family weight w = Ret (cache_path self family weight) w.
Proof.
  intros Hin. unfold download_font, bind, path_exists.
  rewrite (bool_decide_eq_true_2 _ Hin). reflexivity.
Qed.

(** A download that returns leaves the file in the cache. *)
Lemma download_font_returns (self : GoogleFontsDownloader) (family : string)
    (weight : Z) (w w' : world) (p : string) :
  download_font self family weight w = Ret p w' ->
  p = cache_path self family weight
  /\ is_Some (files w' !! cache_path self family weight).
Proof.
  unfold download_font, bind, path_exists.
  destruct (bool_decide (is_Some (files w !! cache_path self family weight))) eqn:Hc.
  - intros [= <- <-]. split; [reflexivity|].
    apply bool_decide_eq_true in Hc. exact Hc.
  - destruct (stat_raises _); [discriminate|].
    unfold try_except, bind, requests_get, raise_for_status, write_bytes, ret, raise.
    destruct (http_get (requests w) (css_url family weight)) as [|st1 css];
      [discriminate|].
    simpl. destruct ((400 <=? st1) && (st1 <? 600)); [discriminate|].
    destruct (search_font_url css) as [font_url|]; [|discriminate].
    destruct (http_get _ font_url) as [|st2 body]; [discriminate|].
    simpl. destruct ((400 <=? st2) && (st2 <? 600)); [discriminate|].
    destruct (write_ok _); [|discriminate].
    intros [= <- <-]. split; [reflexivity|].
    simpl. rewrite lookup_insert_eq. eauto.
Qed.

(** Nothing is ever removed from the cache. *)
Lemma download_font_keeps_files (self : GoogleFontsDownloader) (family : string)
    (weight : Z) (w : world) (q : string) :
  is_Some (files w !! q) ->
  match download_font self family weight w with
  | Ret _ w' | Raise _ w' => is_Some (files w' !! q)
  | Diverge => False
  end.
Proof.
  intros Hq. unfold download_font, bind, path_exists.
  destruct (bool_decide (is_Some (files w !! cache_path self family weight)));
    [exact Hq|].
  destruct (stat_raises _); [exact Hq|].
  unfold try_except, bind, requests_get, raise_for_status, write_bytes, ret, raise.
  destruct (http_get (requests w) (css_url family weight)) as [|st1 css];
    [exact Hq|].
  simpl. destruct ((400 <=? st1) && (st1 <? 600)); [exact Hq|].
  destruct (search_font_url css) as [font_url|]; [|exact Hq].
  destruct (http_get _ font_url) as [|st2 body]; [exact Hq|].
  simpl. destruct ((400 <=? st2) && (st2 <? 600)); [exact Hq|].
  destruct (write_ok _); [|exact Hq].
  simpl. destruct (decide (cache_path self family weight = q)) as [->|Hne].
  - rewrite lookup_insert_eq. eauto.
  - rewrite lookup_insert_ne by exact Hne. exact Hq.
Qed.

(** C4: the cache key is the trimmed family with its spaces turned into
    plus signs, a hyphen, the weight and ".ttf"; when a file of that name
    is in the cache directory the resolver returns its path and leaves the
    world as it was (no request, no write); and after a call that
    returned, the same call returns the same path and changes nothing. *)
Theorem download_font_cache_hit (self : GoogleFontsDownloader) (family : string)
    (weight : Z) :
  cache_path self family weight
  = path_join (cache_dir self)
      (replace " " "+" (strip family) +:+ "-" +:+ str_of_int weight +:+ ".ttf")
  /\ (forall w : world,
        is_Some (files w !! cache_path self family weight) ->
        download_font self family weight w = Ret (cache_path self family weight) w)
  /\ (forall (w w' : world) (p : string),
        download_font self family weight w = Ret p w' ->
        p = cache_path self family weight
        /\ download_font self family weight w' = Ret p w').
Proof.
  split; [reflexivity|]. split.
  - intros w. apply download_font_cached.
  - intros w w' p Hd. apply download_font_returns in Hd as [-> Hin].
    split; [reflexivity|]. apply download_font_cached, Hin.
Qed.

End Cache.

(** ** The edit handler: what every run keeps *)

Section Invariants.

Context `{Env}.

Lemma keeps_ret {A} (a : A) : keeps_pages (ret a).
Proof. intros s. reflexivity. Qed.

Lemma keeps_lift {A} (r : result A) : keeps_pages (lift r).
Proof. intros s. destruct r; reflexivity. Qed.

Lemma keeps_bind {A B} (m : M st A) (k : A -> M st B) :
  keeps_pages m -> (forall a, keeps_pages (k a)) -> keeps_pages (bind m k).
Proof.
  intros Hm Hk s. unfold bind. specialize (Hm s).
  destruct (m s) as [a s1|e s1|]; try assumption.
  specialize (Hk a s1). destruct (k a s1); congruence.
Qed.

Lemma keeps_try {A} (m : M st A) (h : exn -> M st A) :
  keeps_pages m -> (forall e, keeps_pages (h e)) -> keeps_pages (try_except m h).
Proof.
  intros Hm Hh s. unfold try_except. specialize (Hm s).
  destruct (m s) as [a s1|e s1|]; try assumption.
  specialize (Hh e s1). destruct (h e s1); congruence.
Qed.

Lemma put_op_pages (i : nat) (op : draw_op) (d : document) :
  length (doc_pages (put_op i op d)) = length (doc_pages d).
Proof. unfold put_op. simpl. apply length_alter. Qed.

Lemma keeps_doc_getitem (i : Z) : keeps_pages (doc_getitem i).
Proof.
  intros s. unfold doc_getitem.
  destruct (Z.of_nat (length (doc_pages (st_doc s))) <=? i); [reflexivity|].
  destruct (0 <=? i); [reflexivity|].
  destruct (Z.eqb_spec (Z.of_nat (length (doc_pages (st_doc s)))) 0) as [E|E];
    [|reflexivity].
  unfold page_count. lia.
Qed.

Lemma keeps_draw_rect (i : nat) (r : rect) (a b : rgb) : keeps_pages (draw_rect i r a b).
Proof.
  intros s. unfold draw_rect.
  destruct (fitz_draw_rect_ok _ _ _); [|reflexivity].
  unfold page_count. simpl. apply put_op_pages.
Qed.

Lemma keeps_insert_text (i : nat) (pt : num * num) (text : string) (fs : num)
    (font : font_src) (c : rgb) :
  keeps_pages (insert_text i pt text fs font c).
Proof.
  unfold insert_text.
  repeat (apply keeps_bind; [apply keeps_lift|intros ?]).
  intros s. destruct (fitz_insert_text_ok _ _ _ _); [|reflexivity].
  unfold page_count. simpl. apply put_op_pages.
Qed.

(** The downloader always comes back: with a path or with an exception. *)
Lemma download_font_terminates (self : GoogleFontsDownloader) (family : string)
    (weight : Z) (w : world) :
  download_font self family weight w <> Diverge.
Proof.
  unfold download_font, bind, path_exists.
  destruct (bool_decide _); [discriminate|].
  destruct (stat_raises _); [discriminate|].
  unfold try_except, bind, requests_get, raise_for_status, write_bytes, ret, raise.
  destruct (http_get (requests w) (css_url family weight)) as [|st1 css];
    [discriminate|].
  simpl. destruct ((400 <=? st1) && (st1 <? 600)); [discriminate|].
  destruct (search_font_url css) as [font_url|]; [|discriminate].
  destruct (http_get _ font_url) as [|st2 body]; [discriminate|].
  simpl. destruct ((400 <=? st2) && (st2 <? 600)); [discriminate|].
  destruct (write_ok _); discriminate.
Qed.

Lemma keeps_download (family : string) (weight : Z) :
  keeps_pages (in_world (download_font font_downloader family weight)).
Proof.
  intros s. unfold in_world.
  pose proof (download_font_terminates font_downloader family weight (st_world s)).
  destruct (download_font _ _ _ _); [reflexivity|reflexivity|congruence].
Qed.

Lemma keeps_render_text (i : nat) (pt : num * num) (text : string) (fs : num)
    (c : rgb) (family : string) (weight : Z) :
  keeps_pages (render_text i pt text fs c family weight).
Proof.
  unfold render_text. apply keeps_try.
  - destruct (negb (is_empty family) && negb (is_generic family)).
    + unfold google_font_text.
      apply keeps_bind; [apply keeps_download|intros ?; apply keeps_insert_text].
    + apply keeps_insert_text.
  - intros e. apply keeps_insert_text.
Qed.

Lemma keeps_apply_edit (e : Edit.t) : keeps_pages (apply_edit e).
Proof.
  unfold apply_edit.
  repeat (apply keeps_bind;
          [first [apply keeps_lift | apply keeps_doc_getitem | apply keeps_draw_rect]
          |intros ?]).
  apply keeps_render_text.
Qed.

Lemma keeps_for_each (body : Edit.t -> M st unit) (l : list Edit.t) :
  (forall e, keeps_pages (body e)) -> keeps_pages (for_each body l).
Proof.
  intros Hb. induction l as [|a l IH]; simpl.
  - apply keeps_ret.
  - apply keeps_bind; [apply Hb|intros _; exact IH].
Qed.

(** *** No font error gets out *)

Lemma hides_lift_ok {A} (r : result A) :
  (forall e, r = Err e -> is_font_error e = false) -> hides_font_errors (lift r).
Proof.
  intros Hr s s' e. destruct r as [a|e0]; simpl; unfold ret, raise.
  - discriminate.
  - intros [= <- <-]. apply Hr. reflexivity.
Qed.

Lemma hides_bind {A B} (m : M st A) (k : A -> M st B) :
  hides_font_errors m -> (forall a, hides_font_errors (k a)) ->
  hides_font_errors (bind m k).
Proof.
  intros Hm Hk s s' e. unfold bind.
  destruct (m s) as [a s1|e1 s1|] eqn:E.
  - apply Hk.
  - intros [= <- <-]. exact (Hm _ _ _ E).
  - discriminate.
Qed.

Lemma hides_try {A} (m : M st A) (h : exn -> M st A) :
  (forall e, hides_font_errors (h e)) -> hides_font_errors (try_except m h).
Proof.
  intros Hh s s' e. unfold try_except.
  destruct (m s) as [a s1|e1 s1|] eqn:E.
  - discriminate.
  - apply Hh.
  - discriminate.
Qed.

Lemma py_float_err (n : num) (e : exn) : py_float n = Err e -> is_font_error e = false.
Proof.
  destruct n as [z|f]; simpl; [|discriminate].
  destruct (float_of_Z z); [discriminate|]. intros [= <-]. reflexivity.
Qed.

Lemma hides_insert_text (i : nat) (pt : num * num) (text : string) (fs : num)
    (font : font_src) (c : rgb) :
  hides_font_errors (insert_text i pt text fs font c).
Proof.
  unfold insert_text.
  repeat (apply hides_bind; [apply hides_lift_ok, py_float_err|intros ?]).
  intros s s' e. destruct (fitz_insert_text_ok _ _ _ _); [discriminate|].
  intros [= <- <-]. reflexivity.
Qed.

Lemma hides_render_text (i : nat) (pt : num * num) (text : string) (fs : num)
    (c : rgb) (family : string) (weight : Z) :
  hides_font_errors (render_text i pt text fs c family weight).
Proof. unfold render_text. apply hides_try. intros e. apply hides_insert_text. Qed.

Lemma getitem_err {A} (key : string) (field : option A) (e : exn) :
  getitem key field = Err e -> is_font_error e = false.
Proof. destruct field; simpl; [discriminate|]. intros [= <-]. reflexivity. Qed.

Lemma py_add_err (a b : num) (e : exn) : py_add a b = Err e -> is_font_error e = false.
Proof.
  unfold py_add. destruct a as [za|fa], b as [zb|fb]; try discriminate;
    repeat match goal with
           | |- context [py_float ?n] =>
               let E := fresh "E" in
               destruct (py_float n) eqn:E; [|apply py_float_err in E]
           end; try discriminate; intros [= <-]; assumption.
Qed.

Lemma py_sub_err (a b : num) (e : exn) : py_sub a b = Err e -> is_font_error e = false.
Proof.
  unfold py_sub. destruct a as [za|fa], b as [zb|fb]; try discriminate;
    repeat match goal with
           | |- context [py_float ?n] =>
               let E := fresh "E" in
               destruct (py_float n) eqn:E; [|apply py_float_err in E]
           end; try discriminate; intros [= <-]; assumption.
Qed.

Lemma py_mul_err (a b : num) (e : exn) : py_mul a b = Err e -> is_font_error e = false.
Proof.
  unfold py_mul. destruct a as [za|fa], b as [zb|fb]; try discriminate;
    repeat match goal with
           | |- context [py_float ?n] =>
               let E := fresh "E" in
               destruct (py_float n) eqn:E; [|apply py_float_err in E]
           end; try discriminate; intros [= <-]; assumption.
Qed.

Lemma fitz_Rect_err (a b c d : num) (e : exn) :
  fitz_Rect a b c d = Err e -> is_font_error e = false.
Proof.
  unfold fitz_Rect.
  repeat match goal with
         | |- context [py_float ?n] =>
             let E := fresh "E" in
             destruct (py_float n) eqn:E;
             [|apply py_float_err in E; intros [= <-]; assumption]
         end.
  discriminate.
Qed.

Lemma channel_err (g : string) (e : exn) : channel g = Err e -> is_font_error e = false.
Proof.
  unfold channel, py_int.
  destruct int_max_str_digits_above_640 as [n|].
  - destruct (_ <? _)%nat; [intros [= <-]; reflexivity|].
    destruct (py_float _) eqn:E; [discriminate|].
    apply py_float_err in E. intros [= <-]. assumption.
  - destruct (py_float _) eqn:E; [discriminate|].
    apply py_float_err in E. intros [= <-]. assumption.
Qed.

Lemma parse_color_err (s : string) (e : exn) :
  parse_color s = Err e -> is_font_error e = false.
Proof.
  unfold parse_color. destruct (match_rgb s) as [[[r g] b]|]; [|discriminate].
  repeat match goal with
         | |- context [channel ?n] =>
             let E := fresh "E" in
             destruct (channel n) eqn:E;
             [|apply channel_err in E; intros [= <-]; assumption]
         end.
  discriminate.
Qed.

Lemma family_of_total (font_name : string) :
  family_of font_name = Ok (strip (before_first "-" (before_first "," font_name))).
Proof. unfold family_of. rewrite !item0_split. reflexivity. Qed.

Lemma hides_doc_getitem (i : Z) : hides_font_errors (doc_getitem i).
Proof.
  intros s s' e. unfold doc_getitem.
  destruct (_ <=? i); [intros [= <- <-]; reflexivity|].
  destruct (0 <=? i); [discriminate|].
  destruct (_ =? 0); discriminate.
Qed.

Lemma hides_draw_rect (i : nat) (r : rect) (a b : rgb) :
  hides_font_errors (draw_rect i r a b).
Proof.
  intros s s' e. unfold draw_rect.
  destruct (fitz_draw_rect_ok _ _ _); [discriminate|].
  intros [= <- <-]. reflexivity.
Qed.

Lemma hides_apply_edit (e : Edit.t) : hides_font_errors (apply_edit e).
Proof.
  unfold apply_edit.
  repeat (apply hides_bind;
          [first [ apply hides_doc_getitem | apply hides_draw_rect
                 | apply hides_lift_ok;
                   first [ apply getitem_err | apply parse_color_err
                         | apply py_add_err | apply py_sub_err | apply py_mul_err
                         | apply fitz_Rect_err
                         | rewrite family_of_total; discriminate ] ]
          |intros ?]).
  apply hides_render_text.
Qed.

Lemma hides_for_each (l : list Edit.t) : hides_font_errors (for_each apply_edit l).
Proof.
  induction l as [|a l IH]; simpl.
  - intros s s' e. discriminate.
  - apply hides_bind; [apply hides_apply_edit|intros _; exact IH].
Qed.

(** *** Requests that cannot succeed *)

(** An instruction for a page past the last one raises at [doc[page_num]]. *)
Lemma apply_edit_past_end (e : Edit.t) (p : Z) (s : st) :
  Edit.pageNumber e = Some p -> Z.of_nat (page_count s) < p ->
  apply_edit e s = Raise IndexError s.
Proof.
  intros Hp Hlt. unfold apply_edit, bind. rewrite Hp. simpl.
  unfold doc_getitem. unfold page_count in Hlt.
  destruct (Z.leb_spec (Z.of_nat (length (doc_pages (st_doc s)))) (p - 1));
    [reflexivity|lia].
Qed.

(** An instruction without one of its seven required keys never returns
    normally. *)
Lemma apply_edit_missing (e : Edit.t) (s s' : st) (u : unit) :
  missing_required e = true -> apply_edit e s <> Ret u s'.
Proof.
  unfold missing_required, apply_edit, bind. intros Hm.
  destruct (Edit.pageNumber e) as [pn|]; [|discriminate]. simpl.
  destruct (doc_getitem (pn - 1) s) as [i s1| |]; [|discriminate|discriminate].
  destruct (Edit.newText e); [|discriminate]. simpl.
  destruct (Edit.x e); [|discriminate]. simpl.
  destruct (Edit.y e); [|discriminate]. simpl.
  destruct (Edit.width e); [|discriminate]. simpl.
  destruct (Edit.height e); [|discriminate]. simpl.
  destruct (Edit.fontSize e); [|discriminate]. simpl in Hm.
  discriminate.
Qed.

(** One instruction that cannot return, on any state with as many pages,
    keeps the whole loop from returning. *)
Lemma for_each_fails (l : list Edit.t) (bad : Edit.t) (s : st) :
  bad ∈ l ->
  (forall s1 s2 u, page_count s1 = page_count s -> apply_edit bad s1 <> Ret u s2) ->
  forall u s', for_each apply_edit l s <> Ret u s'.
Proof.
  revert s. induction l as [|a l IH]; intros s Hin Hbad u s'.
  - apply elem_of_nil in Hin. contradiction.
  - simpl. unfold bind.
    pose proof (keeps_apply_edit a s) as Hk.
    destruct (apply_edit a s) as [v s1| |] eqn:Ea; [|discriminate|discriminate].
    apply elem_of_cons in Hin as [->|Hin].
    + exfalso. exact (Hbad s s1 v eq_refl Ea).
    + apply IH; [exact Hin|].
      intros s2 s3 w Hc. apply Hbad. congruence.
Qed.

(** A request that reaches the loop and whose loop cannot return: no PDF
    is sent, and on a document with a page the answer is a 500. *)
Lemma edit_pdf_fails (req : request) (w : world) (pdf js : string)
    (l : list Edit.t) (doc : document) :
  files_pdf req = Some pdf -> form_edits req = Some js -> js <> "" ->
  json_loads js = Some l -> fitz_open pdf = Some doc ->
  (forall u s', for_each apply_edit l (St w doc) <> Ret u s') ->
  (forall out w', edit_pdf req w <> Ret (SendFile out) w')
  /\ (doc_pages doc <> [] ->
      exists e w', edit_pdf req w = Ret (JsonError 500 (Exception e)) w').
Proof.
  intros Hpdf Hjs Hne Hl Hdoc Hfail.
  unfold edit_pdf, try_except, bind. rewrite Hpdf, Hjs. simpl.
  apply is_empty_false in Hne. rewrite Hne, Hl, Hdoc. simpl.
  unfold with_doc.
  pose proof (keeps_for_each apply_edit l keeps_apply_edit (St w doc)) as Hk.
  destruct (for_each apply_edit l (St w doc)) as [u s1|e s1|] eqn:E.
  - exfalso. exact (Hfail u s1 eq_refl).
  - unfold ret. split; [discriminate|]. intros _. eauto.
  - split; [discriminate|]. intros Hpages. exfalso.
    unfold page_count in Hk. simpl in Hk.
    destruct (doc_pages doc); [congruence|discriminate].
Qed.

End Invariants.

(** ** The edit handler: the claims *)

Section Requests.

Context `{Env}.

(** C1, as the code has it: when an instruction of the decoded list names
    a page past the last one ([pageNumber] greater than the page count),
    no modified PDF is sent, and on a document with at least one page the
    answer is the request-level error, status 500.  A [pageNumber] of zero
    or below is not rejected as such: [pageNumber - 1] is then a negative
    index, which the document resolves from its end. *)
Theorem page_number_past_last_page_fails (req : request) (w : world)
    (pdf js : string) (l : list Edit.t) (doc : document) (e : Edit.t) (p : Z) :
  files_pdf req = Some pdf -> form_edits req = Some js -> js <> "" ->
  json_loads js = Some l -> fitz_open pdf = Some doc ->
  e ∈ l -> Edit.pageNumber e = Some p ->
  Z.of_nat (length (doc_pages doc)) < p ->
  (forall out w', edit_pdf req w <> Ret (SendFile out) w')
  /\ (doc_pages doc <> [] ->
      exists exc w', edit_pdf req w = Ret (JsonError 500 (Exception exc)) w').
Proof.
  intros Hpdf Hjs Hne Hl Hdoc Hin Hp Hlt.
  apply (edit_pdf_fails req w pdf js l doc Hpdf Hjs Hne Hl Hdoc).
  apply (for_each_fails l e); [exact Hin|].
  intros s1 s2 u Hc. rewrite (apply_edit_past_end e p s1 Hp); [discriminate|].
  unfold page_count in *. simpl in Hc. lia.
Qed.

(** C6: when the edit handler answers with a PDF, that PDF has as many
    pages as the document it opened. *)
Theorem edit_pdf_keeps_the_page_count (req : request) (w w' : world)
    (pdf : string) (doc out : document) :
  files_pdf req = Some pdf -> fitz_open pdf = Some doc ->
  edit_pdf req w = Ret (SendFile out) w' ->
  length (doc_pages out) = length (doc_pages doc).
Proof.
  intros Hpdf Hdoc. unfold edit_pdf, try_except, bind. rewrite Hpdf.
  destruct (is_empty _); [discriminate|].
  destruct (json_loads _) as [l|]; [|discriminate]. simpl.
  rewrite Hdoc. simpl. unfold with_doc.
  pose proof (keeps_for_each apply_edit l keeps_apply_edit (St w doc)) as Hk.
  destruct (for_each apply_edit l (St w doc)) as [u s1|e s1|];
    [|discriminate|discriminate].
  unfold save. destruct (fitz_save_ok _); [|discriminate].
  unfold ret. intros [= <- <-]. exact Hk.
Qed.

(** C10, as the code has it: the keys originalText, color, fontName and
    fontWeight may be absent, and an instruction without them is applied
    as the one that gives them as "", "rgb(0, 0, 0)", "" and 400.  When an
    instruction of the list lacks pageNumber, newText, x, y, width, height
    or fontSize, no PDF is sent, and on a document with at least one page
    the request ends with status 500.  On a document without pages the
    handler may never answer: [doc[pageNumber - 1]] is evaluated before the
    other keys are read. *)
Theorem optional_keys_default_and_required_keys_abort (req : request) (w : world)
    (pdf js : string) (l : list Edit.t) (doc : document) :
  files_pdf req = Some pdf -> form_edits req = Some js -> js <> "" ->
  json_loads js = Some l -> fitz_open pdf = Some doc ->
  (forall (e : Edit.t) (s : st), apply_edit e s = apply_edit (with_defaults e) s)
  /\ (forall e : Edit.t,
        e ∈ l -> missing_required e = true ->
        (forall out w', edit_pdf req w <> Ret (SendFile out) w')
        /\ (doc_pages doc <> [] ->
            exists exc w', edit_pdf req w = Ret (JsonError 500 (Exception exc)) w')).
Proof.
  intros Hpdf Hjs Hne Hl Hdoc. split.
  - intros e s. unfold apply_edit, with_defaults. simpl. reflexivity.
  - intros e Hin Hm.
    apply (edit_pdf_fails req w pdf js l doc Hpdf Hjs Hne Hl Hdoc).
    apply (for_each_fails l e); [exact Hin|].
    intros s1 s2 u _. apply apply_edit_missing, Hm.
Qed.

Lemma doc_getitem_from_end (s : st) (p : Z) :
  (1 <= page_count s)%nat -> - (Z.of_nat (page_count s) - 1) <= p <= 0 ->
  doc_getitem (p - 1) s = Ret (Z.to_nat (Z.of_nat (page_count s) - 1 + p)) s.
Proof.
  intros Hn Hp. unfold doc_getitem. unfold page_count in *.
  set (np := Z.of_nat (length (doc_pages (st_doc s)))) in *.
  destruct (Z.leb_spec np (p - 1)); [lia|].
  destruct (Z.leb_spec 0 (p - 1)); [lia|].
  destruct (Z.eqb_spec np 0); [lia|].
  replace ((p - 1) mod np) with (np - 1 + p); [reflexivity|].
  apply (Z.mod_unique_pos _ _ (-1)); lia.
Qed.

Lemma doc_getitem_in_range (s : st) (p : Z) :
  1 <= p <= Z.of_nat (page_count s) ->
  doc_getitem (p - 1) s = Ret (Z.to_nat (p - 1)) s.
Proof.
  intros Hp. unfold doc_getitem. unfold page_count in *.
  destruct (Z.leb_spec (Z.of_nat (length (doc_pages (st_doc s)))) (p - 1)); [lia|].
  destruct (Z.leb_spec 0 (p - 1)); [reflexivity|lia].
Qed.

End Requests.

(** ** The edit handler: what one instruction draws *)

Section Rendering.
Context `{Env}.

Lemma getitem_Ok {A} (key : string) (field : option A) (v : A) :
  getitem key field = Ok v -> field = Some v.
Proof. destruct field; simpl; congruence. Qed.

Lemma doc_getitem_ret (i : Z) (s s' : st) (idx : nat) :
  doc_getitem i s = Ret idx s' -> s' = s /\ (idx < page_count s)%nat.
Proof.
  unfold doc_getitem, page_count.
  set (np := Z.of_nat (length (doc_pages (st_doc s)))).
  destruct (Z.leb_spec np i); [discriminate|].
  destruct (Z.leb_spec 0 i).
  - intros [= <- <-]. split; [reflexivity|lia].
  - destruct (Z.eqb_spec np 0); [discriminate|].
    intros [= <- <-]. split; [reflexivity|].
    pose proof (Z.mod_pos_bound i np). lia.
Qed.

Lemma insert_text_ret (i : nat) (pt : num * num) (text : string) (fs : num)
    (font : font_src) (c : rgb) (s s' : st) (u : unit) :
  insert_text i pt text fs font c s = Ret u s' ->
  exists px py f : float,
    py_float (fst pt) = Ok px /\ py_float (snd pt) = Ok py /\ py_float fs = Ok f
    /\ fitz_insert_text_ok (st_doc s) i (files (st_world s))
         (TextCall (px, py) text f font c 0) = true
    /\ s' = St (st_world s)
              (put_op i (InsertText (TextCall (px, py) text f font c 0)) (st_doc s)).
Proof.
  unfold insert_text, bind.
  destruct (py_float (fst pt)) as [px|]; [|discriminate].
  destruct (py_float (snd pt)) as [py|]; [|discriminate].
  destruct (py_float fs) as [f|]; [|discriminate].
  cbn [lift ret raise].
  destruct (fitz_insert_text_ok _ _ _ _) eqn:Eok; [|discriminate].
  intros [= <- <-]. exists px, py, f. repeat split. exact Eok.
Qed.

Lemma insert_text_raise (i : nat) (pt : num * num) (text : string) (fs : num)
    (font : font_src) (c : rgb) (s s' : st) (e : exn) :
  insert_text i pt text fs font c s = Raise e s' -> s' = s.
Proof.
  unfold insert_text, bind.
  destruct (py_float (fst pt)) as [px|]; [|intros [= _ <-]; reflexivity].
  destruct (py_float (snd pt)) as [py|]; [|intros [= _ <-]; reflexivity].
  destruct (py_float fs) as [f|]; [|intros [= _ <-]; reflexivity].
  cbn [lift ret raise].
  destruct (fitz_insert_text_ok _ _ _ _); [discriminate|].
  intros [= _ <-]. reflexivity.
Qed.

Lemma google_font_text_doc (i : nat) (pt : num * num) (text : string) (fs : num)
    (c : rgb) (family : string) (weight : Z) (s s' : st) (e : exn) :
  google_font_text i pt text fs c family weight s = Raise e s' ->
  st_doc s' = st_doc s.
Proof.
  unfold google_font_text, bind, in_world.
  destruct (download_font _ _ _ _) as [path w1|e1 w1|].
  - intros Hi. apply insert_text_raise in Hi. subst s'. reflexivity.
  - intros [= _ <-]. reflexivity.
  - discriminate.
Qed.

Lemma google_font_text_ret (i : nat) (pt : num * num) (text : string) (fs : num)
    (c : rgb) (family : string) (weight : Z) (s s' : st) (u : unit) :
  google_font_text i pt text fs c family weight s = Ret u s' ->
  exists (px py f : float) (path : string),
    py_float (fst pt) = Ok px /\ py_float (snd pt) = Ok py /\ py_float fs = Ok f
    /\ st_doc s'
       = put_op i (InsertText (TextCall (px, py) text f (FontFile path) c 0)) (st_doc s).
Proof.
  unfold google_font_text, bind, in_world.
  destruct (download_font _ _ _ _) as [path w1|e1 w1|]; [|discriminate|discriminate].
  intros Hi. apply insert_text_ret in Hi as (px & py & f & Hx & Hy & Hf & _ & ->).
  exists px, py, f, path. repeat split; assumption.
Qed.

(** However the text gets on the page, it is one [insert_text] at the
    given point, size and colour. *)
Lemma render_text_ret (i : nat) (pt : num * num) (text : string) (fs : num)
    (c : rgb) (family : string) (weight : Z) (s s' : st) (u : unit) :
  render_text i pt text fs c family weight s = Ret u s' ->
  exists (px py f : float) (font : font_src),
    py_float (fst pt) = Ok px /\ py_float (snd pt) = Ok py /\ py_float fs = Ok f
    /\ st_doc s'
       = put_op i (InsertText (TextCall (px, py) text f font c 0)) (st_doc s).
Proof.
  unfold render_text, try_except.
  destruct (negb (is_empty family) && negb (is_generic family)).
  - destruct (google_font_text _ _ _ _ _ _ _ s) as [v s1|e s1|] eqn:Eg.
    + intros [= -> ->]. apply google_font_text_ret in Eg
        as (px & py & f & path & Hx & Hy & Hf & Hd).
      exists px, py, f, (FontFile path). repeat split; assumption.
    + intros Hi. apply google_font_text_doc in Eg.
      apply insert_text_ret in Hi as (px & py & f & Hx & Hy & Hf & _ & ->).
      exists px, py, f, (FontName (base14_font weight)).
      simpl. rewrite Eg. repeat split; assumption.
    + discriminate.
  - destruct (insert_text _ _ _ _ _ _ s) as [v s1|e s1|] eqn:Ei.
    + intros [= -> ->]. apply insert_text_ret in Ei
        as (px & py & f & Hx & Hy & Hf & _ & ->).
      exists px, py, f, (FontName (base14_font weight)). repeat split; assumption.
    + intros Hi. apply insert_text_raise in Ei. subst s1.
      apply insert_text_ret in Hi as (px & py & f & Hx & Hy & Hf & _ & ->).
      exists px, py, f, (FontName (base14_font weight)). repeat split; assumption.
    + discriminate.
Qed.

(** The page that [doc[i]] selects: [i] itself, or [i] counted from the
    end. *)
Lemma doc_getitem_index (i : Z) (s s' : st) (idx : nat) :
  doc_getitem i s = Ret idx s' ->
  s' = s /\ (idx < page_count s)%nat
  /\ Z.of_nat idx = i mod Z.of_nat (page_count s).
Proof.
  unfold doc_getitem, page_count.
  set (np := Z.of_nat (length (doc_pages (st_doc s)))).
  destruct (Z.leb_spec np i); [discriminate|].
  destruct (Z.leb_spec 0 i).
  - intros [= <- <-]. split; [reflexivity|]. split; [lia|].
    rewrite Z.mod_small by lia. lia.
  - destruct (Z.eqb_spec np 0); [discriminate|].
    intros [= <- <-]. split; [reflexivity|].
    pose proof (Z.mod_pos_bound i np). split; lia.
Qed.

Lemma doc_getitem_raise (i : Z) (s s' : st) (e : exn) :
  doc_getitem i s = Raise e s' ->
  e = IndexError /\ s' = s /\ Z.of_nat (page_count s) <= i.
Proof.
  unfold doc_getitem, page_count.
  destruct (Z.leb_spec (Z.of_nat (length (doc_pages (st_doc s)))) i).
  - intros [= <- <-]. repeat split. assumption.
  - destruct (0 <=? i); [discriminate|]. destruct (_ =? 0); discriminate.
Qed.

(** What [put_op] does to each page. *)
Lemma put_op_lookup (i j : nat) (op : draw_op) (d : document) (pg : page) :
  doc_pages d !! j = Some pg ->
  doc_pages (put_op i op d) !! j
  = Some (Page (page_fonts pg)
            (page_content pg ++ (if Nat.eqb i j then [op] else []))).
Proof.
  intros Hj. unfold put_op. simpl. destruct (Nat.eqb_spec i j) as [->|Hne].
  - rewrite list_lookup_alter_eq, Hj. reflexivity.
  - rewrite list_lookup_alter_ne by exact Hne.
    rewrite Hj, app_nil_r. destruct pg; reflexivity.
Qed.

(** An instruction that returns has drawn on the page that
    [doc[pageNumber - 1]] selects: the white box of its [x], [y], [width]
    and [height], and then its [newText]. *)
Lemma apply_edit_ret_ops (e : Edit.t) (s s' : st) (u : unit) :
  apply_edit e s = Ret u s' ->
  exists (pn : Z) (i : nat) (x y width height : num) (r : rect) (call : text_call),
    Edit.pageNumber e = Some pn /\ doc_getitem (pn - 1) s = Ret i s
    /\ Edit.newText e = Some (tc_text call)
    /\ Edit.x e = Some x /\ Edit.y e = Some y /\ Edit.width e = Some width
    /\ Edit.height e = Some height
    /\ whiteout_rect x y width height = Ok r
    /\ st_doc s'
       = put_op i (InsertText call) (put_op i (DrawRect r white white) (st_doc s)).
Proof.
  intros Happ. unfold apply_edit, bind in Happ.
  destruct (getitem "pageNumber" _) as [pn|] eqn:Epn; cbn [lift ret raise] in Happ;
    [|discriminate].
  destruct (doc_getitem (pn - 1) s) as [i s0| |] eqn:Eg; [|discriminate|discriminate].
  pose proof (doc_getitem_ret _ _ _ _ Eg) as [-> _].
  destruct (getitem "newText" _) as [new_text|] eqn:Ent; cbn [lift ret raise] in Happ;
    [|discriminate].
  destruct (getitem "x" _) as [x|] eqn:Ex; cbn [lift ret raise] in Happ; [|discriminate].
  destruct (getitem "y" _) as [y|] eqn:Ey; cbn [lift ret raise] in Happ; [|discriminate].
  destruct (getitem "width" _) as [width|] eqn:Ew; cbn [lift ret raise] in Happ;
    [|discriminate].
  destruct (getitem "height" _) as [height|] eqn:Eh; cbn [lift ret raise] in Happ;
    [|discriminate].
  destruct (getitem "fontSize" _) as [font_size|]; cbn [lift ret raise] in Happ;
    [|discriminate].
  apply getitem_Ok in Epn, Ent, Ex, Ey, Ew, Eh.
  destruct (parse_color _) as [col|]; cbn [lift ret raise] in Happ; [|discriminate].
  rewrite family_of_total in Happ. cbn [lift ret raise] in Happ.
  destruct (py_add x width) as [xw|] eqn:Exw; cbn [lift ret raise] in Happ;
    [|discriminate].
  destruct (py_add y height) as [yh|] eqn:Eyh; cbn [lift ret raise] in Happ;
    [|discriminate].
  destruct (fitz_Rect x y xw yh) as [r|] eqn:Er; cbn [lift ret raise] in Happ;
    [|discriminate].
  unfold draw_rect in Happ.
  destruct (fitz_draw_rect_ok _ _ _); [|discriminate].
  destruct (py_mul font_size _) as [fifth|]; cbn [lift ret raise] in Happ;
    [|discriminate].
  destruct (py_sub yh fifth) as [text_y|]; cbn [lift ret raise] in Happ;
    [|discriminate].
  apply render_text_ret in Happ as (px & py & f & font & _ & _ & _ & Hd).
  simpl in Hd.
  exists pn, i, x, y, width, height, r, (TextCall (px, py) new_text f font col 0).
  do 7 (split; [assumption|]).
  split; [unfold whiteout_rect; rewrite Exw, Eyh; exact Er|exact Hd].
Qed.

(** The same, page by page. *)
Lemma apply_edit_ret_page (e : Edit.t) (s s' : st) (pn : Z) (i : nat) :
  Edit.pageNumber e = Some pn -> doc_getitem (pn - 1) s = Ret i s ->
  apply_edit e s = Ret tt s' ->
  exists (pg pg' : page) (r : rect) (call : text_call),
    doc_pages (st_doc s) !! i = Some pg
    /\ doc_pages (st_doc s') !! i = Some pg'
    /\ page_content pg'
       = (page_content pg ++ [DrawRect r white white; InsertText call])%list
    /\ Edit.newText e = Some (tc_text call)
    /\ (forall j : nat, j <> i -> doc_pages (st_doc s') !! j = doc_pages (st_doc s) !! j).
Proof.
  intros Hpn Hget Happ.
  apply apply_edit_ret_ops in Happ
    as (pn' & i' & x & y & width & height & r & call & Hpn' & Hget' & Hnt & _ & _ & _
        & _ & _ & Hd).
  assert (pn' = pn) as -> by congruence.
  assert (i' = i) as -> by congruence.
  apply doc_getitem_ret in Hget as [_ Hi].
  destruct (lookup_lt_is_Some_2 (doc_pages (st_doc s)) i Hi) as [pg Hpg].
  exists pg, (Page (page_fonts pg)
                (page_content pg ++ [DrawRect r white white; InsertText call])), r, call.
  split; [exact Hpg|]. rewrite Hd. split; [|split; [reflexivity|split; [exact Hnt|]]].
  - rewrite (put_op_lookup i i _ _ _ (put_op_lookup i i _ _ _ Hpg)).
    rewrite Nat.eqb_refl. simpl. rewrite <- app_assoc. reflexivity.
  - intros j Hj. unfold put_op. simpl.
    rewrite !list_lookup_alter_ne by congruence. reflexivity.
Qed.

(** C8: an instruction that is applied paints the white rectangle
    [(x, y, x + width, y + height)] on its page and then inserts the text
    at the point whose vertical coordinate is
    [y + height - fontSize * 0.2]; the page gets these two operations, in
    this order, and no other page changes. *)
Theorem whiteout_box_and_text_baseline (e : Edit.t) (s s' : st) :
  apply_edit e s = Ret tt s' ->
  exists (i : nat) (pg : page) (x y width height font_size text_y : num)
         (r : rect) (call : text_call),
    Edit.x e = Some x /\ Edit.y e = Some y /\ Edit.width e = Some width
    /\ Edit.height e = Some height /\ Edit.fontSize e = Some font_size
    /\ whiteout_rect x y width height = Ok r
    /\ text_baseline y height font_size = Ok text_y
    /\ py_float x = Ok (fst (tc_point call))
    /\ py_float text_y = Ok (snd (tc_point call))
    /\ doc_pages (st_doc s) !! i = Some pg
    /\ doc_pages (st_doc s') !! i
       = Some (Page (page_fonts pg)
                 (page_content pg ++ [DrawRect r white white; InsertText call]))
    /\ (forall j : nat, j <> i -> doc_pages (st_doc s') !! j = doc_pages (st_doc s) !! j).
Proof.
  intros Happ. unfold apply_edit, bind in Happ.
  destruct (getitem "pageNumber" _) as [pn|] eqn:Epn; cbn [lift ret raise] in Happ;
    [|discriminate].
  destruct (doc_getitem (pn - 1) s) as [i s0| |] eqn:Eg; [|discriminate|discriminate].
  apply doc_getitem_ret in Eg as [-> Hi].
  destruct (getitem "newText" _) as [new_text|] eqn:Ent; cbn [lift ret raise] in Happ;
    [|discriminate].
  destruct (getitem "x" _) as [x|] eqn:Ex; cbn [lift ret raise] in Happ; [|discriminate].
  destruct (getitem "y" _) as [y|] eqn:Ey; cbn [lift ret raise] in Happ; [|discriminate].
  destruct (getitem "width" _) as [width|] eqn:Ew; cbn [lift ret raise] in Happ;
    [|discriminate].
  destruct (getitem "height" _) as [height|] eqn:Eh; cbn [lift ret raise] in Happ;
    [|discriminate].
  destruct (getitem "fontSize" _) as [font_size|] eqn:Ef; cbn [lift ret raise] in Happ;
    [|discriminate].
  apply getitem_Ok in Ex, Ey, Ew, Eh, Ef.
  destruct (parse_color _) as [col|]; cbn [lift ret raise] in Happ; [|discriminate].
  rewrite family_of_total in Happ. cbn [lift ret raise] in Happ.
  destruct (py_add x width) as [xw|] eqn:Exw; cbn [lift ret raise] in Happ;
    [|discriminate].
  destruct (py_add y height) as [yh|] eqn:Eyh; cbn [lift ret raise] in Happ;
    [|discriminate].
  destruct (fitz_Rect x y xw yh) as [r|] eqn:Er; cbn [lift ret raise] in Happ;
    [|discriminate].
  unfold draw_rect in Happ.
  destruct (fitz_draw_rect_ok _ _ _); [|discriminate].
  destruct (py_mul font_size _) as [fifth|] eqn:Em; cbn [lift ret raise] in Happ;
    [|discriminate].
  destruct (py_sub yh fifth) as [text_y|] eqn:Es; cbn [lift ret raise] in Happ;
    [|discriminate].
  apply render_text_ret in Happ as (px & py & f & font & Hx & Hy & Hf & Hd).
  simpl in Hx, Hy, Hd.
  destruct (lookup_lt_is_Some_2 (doc_pages (st_doc s)) i Hi) as [pg Hpg].
  exists i, pg, x, y, width, height, font_size, text_y, r,
    (TextCall (px, py) new_text f font col 0).
  do 5 (split; [assumption|]).
  split; [unfold whiteout_rect; rewrite Exw, Eyh; exact Er|].
  split; [unfold text_baseline; rewrite Eyh, Em; exact Es|].
  do 3 (split; [assumption|]).
  rewrite Hd. unfold put_op. simpl. split.
  - rewrite !list_lookup_alter_eq, Hpg. simpl. rewrite <- app_assoc. reflexivity.
  - intros j Hj. rewrite !list_lookup_alter_ne by congruence. reflexivity.
Qed.

Lemma base14_font_bold (weight : Z) :
  (base14_font weight = "Helvetica-Bold" <-> 700 <= weight)
  /\ (base14_font weight = "Helvetica" <-> weight < 700).
Proof.
  unfold base14_font. destruct (Z.leb_spec 700 weight); split; split;
    intros; try reflexivity; try lia; discriminate.
Qed.

Lemma edit_pdf_hides_font_errors (req : request) (w w' : world) (e : exn)
    (status : Z) :
  edit_pdf req w = Ret (JsonError status (Exception e)) w' ->
  is_font_error e = false.
Proof.
  unfold edit_pdf, try_except, bind.
  destruct (files_pdf req) as [pdf|]; [|discriminate].
  destruct (is_empty _); [discriminate|].
  destruct (json_loads _) as [l|]; cbn [lift ret raise];
    [|intros [= _ <- _]; reflexivity].
  destruct (fitz_open pdf) as [doc|]; cbn [lift ret raise];
    [|intros [= _ <- _]; reflexivity].
  unfold with_doc.
  destruct (for_each apply_edit l (St w doc)) as [u s1|e1 s1|] eqn:E.
  - unfold save. destruct (fitz_save_ok _); cbn [ret raise]; [discriminate|].
    intros [= _ <- _]. reflexivity.
  - unfold ret. intros [= _ <- _]. exact (hides_for_each l _ _ _ E).
  - discriminate.
Qed.

(** C3: for an instruction whose family is to be downloaded, when the
    attempt with the downloaded font raises (the download, the reading of
    the stylesheet, the write to the cache or PyMuPDF's use of the file),
    the block continues as the insertion of the same text with the
    built-in font: Helvetica-Bold exactly when [fontWeight >= 700],
    Helvetica otherwise, at the point, size and colour that the
    downloaded-font insertion uses; the document is as it was before the
    attempt, so when PyMuPDF accepts the built-in insertion the instruction
    returns normally.  No answer of the handler carries an error of the
    font downloader. *)
Theorem font_failure_falls_back_to_base14 (page : nat) (point : num * num)
    (new_text : string) (font_size : num) (color : rgb) (family : string)
    (font_weight : Z) (s s1 : st) (exc : exn) :
  is_empty family = false -> is_generic family = false ->
  google_font_text page point new_text font_size color family font_weight s
  = Raise exc s1 ->
  render_text page point new_text font_size color family font_weight s
  = insert_text page point new_text font_size (FontName (base14_font font_weight))
      color s1
  /\ st_doc s1 = st_doc s
  /\ (base14_font font_weight = "Helvetica-Bold" <-> 700 <= font_weight)
  /\ (base14_font font_weight = "Helvetica" <-> font_weight < 700)
  /\ (forall px py fs : float,
        py_float (fst point) = Ok px -> py_float (snd point) = Ok py ->
        py_float font_size = Ok fs ->
        (fitz_insert_text_ok (st_doc s) page (files (st_world s1))
           (TextCall (px, py) new_text fs (FontName (base14_font font_weight)) color 0)
         = true ->
         render_text page point new_text font_size color family font_weight s
         = Ret tt
             (St (st_world s1)
                (put_op page
                   (InsertText
                      (TextCall (px, py) new_text fs
                         (FontName (base14_font font_weight)) color 0))
                   (st_doc s))))
        /\ (forall (s0 s0' : st),
              google_font_text page point new_text font_size color family
                font_weight s0 = Ret tt s0' ->
              exists path : string,
                st_doc s0'
                = put_op page
                    (InsertText (TextCall (px, py) new_text fs (FontFile path) color 0))
                    (st_doc s0)))
  /\ (forall (req : request) (w w' : world) (status : Z) (e : exn),
        edit_pdf req w = Ret (JsonError status (Exception e)) w' ->
        is_font_error e = false).
Proof.
  intros Hne Hng Hraise.
  assert (Hrender :
    render_text page point new_text font_size color family font_weight s
    = insert_text page point new_text font_size
        (FontName (base14_font font_weight)) color s1).
  { unfold render_text, try_except. rewrite Hne, Hng. simpl.
    rewrite Hraise. reflexivity. }
  pose proof (google_font_text_doc _ _ _ _ _ _ _ _ _ _ Hraise) as Hdoc.
  destruct (base14_font_bold font_weight) as [Hbold Hplain].
  repeat (split; [assumption|]).
  split.
  - intros px py fs Hx Hy Hf. split.
    + intros Hok. rewrite Hrender. unfold insert_text, bind.
      rewrite Hx, Hy, Hf. cbn [lift ret raise].
      rewrite Hdoc, Hok. reflexivity.
    + intros s0 s0' Hret.
      apply google_font_text_ret in Hret
        as (px' & py' & f' & path & Hx' & Hy' & Hf' & Hd).
      exists path. rewrite Hd. congruence.
  - intros req w w' status e. apply edit_pdf_hides_font_errors.
Qed.

(** *** What an instruction can raise *)

Lemma py_float_raises (n : num) (e : exn) : py_float n = Err e -> e = OverflowError.
Proof.
  destruct n as [z|f]; simpl; [|discriminate].
  destruct (float_of_Z z); [discriminate|]. intros [= <-]. reflexivity.
Qed.

Lemma py_add_raises (a b : num) (e : exn) : py_add a b = Err e -> e = OverflowError.
Proof.
  unfold py_add. destruct a as [za|fa], b as [zb|fb]; try discriminate;
    repeat match goal with
           | |- context [py_float ?n] =>
               let E := fresh "E" in
               destruct (py_float n) eqn:E; [|apply py_float_raises in E]
           end; try discriminate; intros [= <-]; assumption.
Qed.

Lemma py_sub_raises (a b : num) (e : exn) : py_sub a b = Err e -> e = OverflowError.
Proof.
  unfold py_sub. destruct a as [za|fa], b as [zb|fb]; try discriminate;
    repeat match goal with
           | |- context [py_float ?n] =>
               let E := fresh "E" in
               destruct (py_float n) eqn:E; [|apply py_float_raises in E]
           end; try discriminate; intros [= <-]; assumption.
Qed.

Lemma py_mul_raises (a b : num) (e : exn) : py_mul a b = Err e -> e = OverflowError.
Proof.
  unfold py_mul. destruct a as [za|fa], b as [zb|fb]; try discriminate;
    repeat match goal with
           | |- context [py_float ?n] =>
               let E := fresh "E" in
               destruct (py_float n) eqn:E; [|apply py_float_raises in E]
           end; try discriminate; intros [= <-]; assumption.
Qed.

Lemma fitz_Rect_raises (a b c d : num) (e : exn) :
  fitz_Rect a b c d = Err e -> e = OverflowError.
Proof.
  unfold fitz_Rect.
  repeat match goal with
         | |- context [py_float ?n] =>
             let E := fresh "E" in
             destruct (py_float n) eqn:E;
             [|apply py_float_raises in E; intros [= <-]; assumption]
         end.
  discriminate.
Qed.

Lemma channel_raises (g : string) (e : exn) :
  channel g = Err e -> e = IntDigitsError \/ e = OverflowError.
Proof.
  unfold channel, py_int.
  destruct int_max_str_digits_above_640 as [n|].
  - destruct (_ <? _)%nat; [intros [= <-]; left; reflexivity|].
    destruct (py_float _) eqn:E; [discriminate|].
    apply py_float_raises in E. intros [= <-]. right. assumption.
  - destruct (py_float _) eqn:E; [discriminate|].
    apply py_float_raises in E. intros [= <-]. right. assumption.
Qed.

Lemma parse_color_raises (c : string) (e : exn) :
  parse_color c = Err e -> e = IntDigitsError \/ e = OverflowError.
Proof.
  unfold parse_color. destruct (match_rgb c) as [[[r g] b]|]; [|discriminate].
  repeat match goal with
         | |- context [channel ?n] =>
             let E := fresh "E" in
             destruct (channel n) eqn:E;
             [|apply channel_raises in E; intros [= <-]; assumption]
         end.
  discriminate.
Qed.

Lemma insert_text_raises (i : nat) (pt : num * num) (text : string) (fs : num)
    (font : font_src) (c : rgb) (s s' : st) (e : exn) :
  insert_text i pt text fs font c s = Raise e s' -> e = OverflowError \/ e = FitzError.
Proof.
  unfold insert_text, bind.
  destruct (py_float (fst pt)) as [px|] eqn:E1; cbn [lift ret raise];
    [|apply py_float_raises in E1; intros [= <- _]; left; assumption].
  destruct (py_float (snd pt)) as [py|] eqn:E2; cbn [lift ret raise];
    [|apply py_float_raises in E2; intros [= <- _]; left; assumption].
  destruct (py_float fs) as [f|] eqn:E3; cbn [lift ret raise];
    [|apply py_float_raises in E3; intros [= <- _]; left; assumption].
  destruct (fitz_insert_text_ok _ _ _ _); [discriminate|].
  intros [= <- _]. right. reflexivity.
Qed.

(** Whatever the [try] block raised, what leaves it is an exception of
    the built-in insertion. *)
Lemma render_text_raises (i : nat) (pt : num * num) (text : string) (fs : num)
    (c : rgb) (family : string) (weight : Z) (s s' : st) (e : exn) :
  render_text i pt text fs c family weight s = Raise e s' ->
  e = OverflowError \/ e = FitzError.
Proof.
  unfold render_text, try_except.
  match goal with |- context [match ?m s with _ => _ end] => destruct (m s) end;
    [discriminate|apply insert_text_raises|discriminate].
Qed.

(** An [IndexError] of an instruction is the one of [doc[pageNumber - 1]]:
    the page number is past the last page. *)
Lemma apply_edit_index_error (e : Edit.t) (s s' : st) :
  apply_edit e s = Raise IndexError s' ->
  exists pn : Z,
    Edit.pageNumber e = Some pn /\ doc_getitem (pn - 1) s = Raise IndexError s.
Proof.
  unfold apply_edit, bind.
  destruct (Edit.pageNumber e) as [pn|]; cbn [getitem lift ret raise]; [|discriminate].
  destruct (doc_getitem (pn - 1) s) as [i s0|e0 s0|] eqn:Eg; [| |discriminate].
  2:{ intros [= -> _]. pose proof (doc_getitem_raise _ _ _ _ Eg) as (_ & -> & _).
      exists pn. split; [reflexivity|exact Eg]. }
  intros Happ. exfalso. revert Happ.
  destruct (Edit.newText e); cbn [getitem lift ret raise]; [|discriminate].
  destruct (Edit.x e) as [x|]; cbn [getitem lift ret raise]; [|discriminate].
  destruct (Edit.y e) as [y|]; cbn [getitem lift ret raise]; [|discriminate].
  destruct (Edit.width e) as [width|]; cbn [getitem lift ret raise]; [|discriminate].
  destruct (Edit.height e) as [height|]; cbn [getitem lift ret raise]; [|discriminate].
  destruct (Edit.fontSize e) as [font_size|]; cbn [getitem lift ret raise];
    [|discriminate].
  destruct (parse_color _) as [col|e1] eqn:E1; cbn [lift ret raise];
    [|apply parse_color_raises in E1; intros [= -> _]; destruct E1; discriminate].
  rewrite family_of_total. cbn [lift ret raise].
  destruct (py_add x width) as [xw|e1] eqn:E2; cbn [lift ret raise];
    [|apply py_add_raises in E2; intros [= -> _]; discriminate].
  destruct (py_add y height) as [yh|e1] eqn:E3; cbn [lift ret raise];
    [|apply py_add_raises in E3; intros [= -> _]; discriminate].
  destruct (fitz_Rect x y xw yh) as [r|e1] eqn:E4; cbn [lift ret raise];
    [|apply fitz_Rect_raises in E4; intros [= -> _]; discriminate].
  unfold draw_rect. destruct (fitz_draw_rect_ok _ _ _); [|discriminate].
  destruct (py_mul font_size _) as [fifth|e1] eqn:E5; cbn [lift ret raise];
    [|apply py_mul_raises in E5; intros [= -> _]; discriminate].
  destruct (py_sub yh fifth) as [text_y|e1] eqn:E6; cbn [lift ret raise];
    [|apply py_sub_raises in E6; intros [= -> _]; discriminate].
  intros Hr. apply render_text_raises in Hr. destruct Hr; discriminate.
Qed.

(** C9: on a document with at least one page, a [pageNumber] from
    [-(pageCount - 1)] to 0 is not rejected: [pageNumber - 1] is negative
    and selects the page [pageCount + pageNumber - 1] (0-based), counted
    from the end, so the instruction runs exactly as the one for page
    [pageNumber + pageCount] and never ends with [IndexError].  When it
    returns, that page has gained the white rectangle and the instruction's
    text, and no other page has changed; with [pageNumber = 0] that page is
    the last page of the document. *)
Theorem nonpositive_page_number_counts_from_the_end (s : st) (p : Z) :
  (1 <= page_count s)%nat -> - (Z.of_nat (page_count s) - 1) <= p <= 0 ->
  doc_getitem (p - 1) s = Ret (Z.to_nat (Z.of_nat (page_count s) - 1 + p)) s
  /\ (1 <= p + Z.of_nat (page_count s) <= Z.of_nat (page_count s))
  /\ (forall e : Edit.t,
        Edit.pageNumber e = Some p ->
        apply_edit e s = apply_edit (on_page (p + Z.of_nat (page_count s)) e) s)
  /\ doc_getitem (0 - 1) s = Ret (page_count s - 1)%nat s
  /\ (forall (e : Edit.t) (exc : exn) (s' : st),
        Edit.pageNumber e = Some p -> apply_edit e s = Raise exc s' ->
        exc <> IndexError)
  /\ (forall (e : Edit.t) (s' : st),
        Edit.pageNumber e = Some p -> apply_edit e s = Ret tt s' ->
        exists (pg pg' : page) (r : rect) (call : text_call),
          doc_pages (st_doc s) !! Z.to_nat (Z.of_nat (page_count s) - 1 + p) = Some pg
          /\ doc_pages (st_doc s') !! Z.to_nat (Z.of_nat (page_count s) - 1 + p)
             = Some pg'
          /\ page_content pg'
             = (page_content pg ++ [DrawRect r white white; InsertText call])%list
          /\ Edit.newText e = Some (tc_text call)
          /\ (forall j : nat,
                j <> Z.to_nat (Z.of_nat (page_count s) - 1 + p) ->
                doc_pages (st_doc s') !! j = doc_pages (st_doc s) !! j))
  /\ (forall (e : Edit.t) (s' : st),
        Edit.pageNumber e = Some 0 -> apply_edit e s = Ret tt s' ->
        exists (pg pg' : page) (r : rect) (call : text_call),
          last (doc_pages (st_doc s)) = Some pg
          /\ last (doc_pages (st_doc s')) = Some pg'
          /\ page_content pg'
             = (page_content pg ++ [DrawRect r white white; InsertText call])%list
          /\ Edit.newText e = Some (tc_text call)).
Proof.
  intros Hn Hp. pose proof (doc_getitem_from_end s p Hn Hp) as Hget.
  split; [exact Hget|]. split; [lia|]. split; [|split; [|split; [|split]]].
  - intros e He. unfold apply_edit, bind. rewrite He. simpl.
    rewrite Hget.
    rewrite (doc_getitem_in_range s (p + Z.of_nat (page_count s))) by lia.
    replace (Z.to_nat (p + Z.of_nat (page_count s) - 1))
      with (Z.to_nat (Z.of_nat (page_count s) - 1 + p)) by (f_equal; lia).
    reflexivity.
  - rewrite (doc_getitem_from_end s 0 Hn) by lia. f_equal. lia.
  - intros e exc s' He Hr ->.
    apply apply_edit_index_error in Hr as (pn & Hpn & Hraise).
    assert (pn = p) as -> by congruence. rewrite Hget in Hraise. discriminate.
  - intros e s' He Hret. exact (apply_edit_ret_page e s s' p _ He Hget Hret).
  - intros e s' He Hret.
    pose proof (doc_getitem_from_end s 0 Hn ltac:(lia)) as Hget0.
    destruct (apply_edit_ret_page e s s' 0 _ He Hget0 Hret)
      as (pg & pg' & r & call & Hpg & Hpg' & Hc & Hnt & _).
    exists pg, pg', r, call.
    pose proof (keeps_apply_edit e s) as Hk. rewrite Hret in Hk.
    rewrite !last_lookup. unfold page_count in *.
    replace (Init.Nat.pred (length (doc_pages (st_doc s'))))
      with (Z.to_nat (Z.of_nat (length (doc_pages (st_doc s))) - 1 + 0)) by lia.
    replace (Init.Nat.pred (length (doc_pages (st_doc s))))
      with (Z.to_nat (Z.of_nat (length (doc_pages (st_doc s))) - 1 + 0)) by lia.
    repeat split; assumption.
Qed.

End Rendering.

(** ** The loop behind [doc[i]] *)

(** With at least one page the loop of [load_page] ends, on the index
    that [doc_getitem] computes. *)
Lemma add_page_count_ends (np page_id : Z) :
  0 < np -> page_id < np ->
  exists fuel : nat, add_page_count fuel np page_id = Some (page_id mod np).
Proof.
  intros Hnp. remember (Z.to_nat (- page_id)) as n eqn:En.
  revert page_id En. induction n as [n IH] using lt_wf_ind. intros i En Hi.
  destruct (Z.ltb_spec i 0) as [Hneg|Hpos].
  - destruct (IH (Z.to_nat (- (i + np))) ltac:(lia) (i + np) eq_refl ltac:(lia))
      as [fuel Hf].
    exists (S fuel). simpl.
    destruct (Z.ltb_spec i 0); [|lia].
    rewrite Hf. f_equal.
    replace (i + np) with (i + 1 * np) by lia. apply Z.mod_add. lia.
  - exists 1%nat. simpl. destruct (Z.ltb_spec i 0); [lia|].
    f_equal. symmetry. apply Z.mod_small. lia.
Qed.

(** Without a page it never ends on a negative index. *)
Lemma add_page_count_never_ends (fuel : nat) (page_id : Z) :
  page_id < 0 -> add_page_count fuel 0 page_id = None.
Proof.
  revert page_id. induction fuel as [|fuel IH]; intros i Hi; simpl.
  - reflexivity.
  - destruct (Z.ltb_spec i 0); [|lia]. apply IH. lia.
Qed.

(** ** Font extraction *)

Section Extraction.
Context `{Env}.

(** The nested loops are one pass over the occurrences. *)
Lemma extract_pages_occurrences (doc : document) (pages : list page) (pn : nat)
    (acc : gmap string string * gmap string font_meta) :
  extract_pages doc pn pages acc
  = fold_left (fun a o => extract_one doc (fst o) a (snd o)) (occurrences pn pages) acc.
Proof.
  revert pn acc. induction pages as [|p rest IH]; intros pn acc; simpl.
  - reflexivity.
  - rewrite fold_left_app, IH. f_equal.
    generalize (page_fonts p) acc. intros l. induction l as [|fi l IHl]; intros a; simpl.
    + reflexivity.
    + apply IHl.
Qed.

(** What one occurrence does to the two dictionaries. *)
Lemma extract_one_spec (doc : document) (pn : nat) (fi : font_info)
    (fonts : gmap string string) (metadata : gmap string font_meta) :
  extract_one doc pn (fonts, metadata) fi
  = match fonts !! fi_name fi, extracted doc fi with
    | None, Some buf =>
        (<[fi_name fi := data_of (pn, fi, buf)]> fonts,
         <[fi_name fi := meta_of (pn, fi, buf)]> metadata)
    | _, _ => (fonts, metadata)
    end.
Proof.
  unfold extract_one, extracted.
  destruct (fonts !! fi_name fi) as [v|] eqn:E.
  - rewrite bool_decide_eq_true_2 by eauto. reflexivity.
  - rewrite bool_decide_eq_false_2 by (intros [? ?]; discriminate).
    destruct (doc_extract_font doc (fi_xref fi)) as [buf|]; [|reflexivity].
    destruct (is_empty (fb_basename buf)); [reflexivity|].
    destruct (is_empty (fb_content buf)); reflexivity.
Qed.

(** After the pass, a name already in [fonts] keeps its two entries, and
    any other name has the entries of its first occurrence that
    extracts. *)
Lemma extract_fold_lookup (doc : document) (name : string)
    (occs : list (nat * font_info))
    (fonts : gmap string string) (metadata : gmap string font_meta) :
  (fonts !! name = None -> metadata !! name = None) ->
  let r := fold_left (fun a o => extract_one doc (fst o) a (snd o)) occs
             (fonts, metadata) in
  fst r !! name
  = match fonts !! name with
    | Some v => Some v
    | None => data_of <$> first_extracted doc name occs
    end
  /\ snd r !! name
     = match fonts !! name with
       | Some _ => metadata !! name
       | None => meta_of <$> first_extracted doc name occs
       end.
Proof.
  revert fonts metadata.
  induction occs as [|[pn fi] occs IH]; intros fonts metadata Hinv.
  - simpl. destruct (fonts !! name); split; try reflexivity.
    apply Hinv. reflexivity.
  - cbn [fold_left fst snd]. rewrite extract_one_spec.
    cbn [first_extracted].
    destruct (String.eqb_spec (fi_name fi) name) as [Heq|Hneq].
    + destruct (fonts !! fi_name fi) as [v|] eqn:Ef.
      * specialize (IH fonts metadata Hinv). rewrite <- Heq, Ef in *.
        destruct (extracted doc fi); exact IH.
      * destruct (extracted doc fi) as [buf|] eqn:Ex.
        -- specialize (IH (<[fi_name fi := data_of (pn, fi, buf)]> fonts)
                         (<[fi_name fi := meta_of (pn, fi, buf)]> metadata)).
           rewrite <- Heq in *. rewrite !lookup_insert_eq in IH.
           rewrite Ef. apply IH. discriminate.
        -- specialize (IH fonts metadata Hinv). rewrite <- Heq, Ef in *. exact IH.
    + destruct (fonts !! fi_name fi) as [v|] eqn:Ef.
      * destruct (extracted doc fi); apply IH, Hinv.
      * destruct (extracted doc fi) as [buf|] eqn:Ex; [|apply IH, Hinv].
        specialize (IH (<[fi_name fi := data_of (pn, fi, buf)]> fonts)
                      (<[fi_name fi := meta_of (pn, fi, buf)]> metadata)).
        rewrite !lookup_insert_ne in IH by exact Hneq. apply IH, Hinv.
Qed.

(** When the first occurrence of a name extracts, it is the one
    recorded. *)
Lemma first_occurrence_extracted (doc : document) (name : string)
    (occs : list (nat * font_info)) (pn : nat) (fi : font_info) (buf : font_buffer) :
  first_occurrence name occs = Some (pn, fi) -> extracted doc fi = Some buf ->
  first_extracted doc name occs = Some (pn, fi, buf).
Proof.
  induction occs as [|[pn' fi'] occs IH]; simpl; [discriminate|].
  destruct (String.eqb (fi_name fi') name).
  - intros [= -> ->] Hbuf. rewrite Hbuf. reflexivity.
  - exact IH.
Qed.

(** C7, as the code has it: the extraction always answers with the two
    dictionaries; a name has an entry in both exactly when one of its
    occurrences extracts to a named, non-empty font, and then the entry is
    that of the first such occurrence, with [pages] the one-element list of
    its 1-based page, whatever later pages reference the name; an
    occurrence whose extraction raises or gives no bytes adds nothing, so a
    name none of whose occurrences extracts is in neither dictionary.
    When the first occurrence of the name extracts, that page is the page
    where the name is first seen. *)
Theorem extract_fonts_records_first_extracted (req : request) (pdf : string)
    (doc : document) :
  files_pdf req = Some pdf -> fitz_open pdf = Some doc ->
  exists (fonts : gmap string string) (metadata : gmap string font_meta),
    extract_fonts req = JsonFonts fonts metadata
    /\ forall name : string,
         let occs := occurrences 0 (doc_pages doc) in
         fonts !! name = data_of <$> first_extracted doc name occs
         /\ metadata !! name = meta_of <$> first_extracted doc name occs
         /\ (forall m : font_meta,
               metadata !! name = Some m ->
               exists (pn : nat) (fi : font_info) (buf : font_buffer),
                 first_extracted doc name occs = Some (pn, fi, buf)
                 /\ meta_pages m = [Z.of_nat pn + 1])
         /\ (first_extracted doc name occs = None ->
             fonts !! name = None /\ metadata !! name = None)
         /\ (forall (pn : nat) (fi : font_info),
               first_occurrence name occs = Some (pn, fi) ->
               is_Some (extracted doc fi) ->
               first_seen name occs = Some pn
               /\ exists m : font_meta,
                    metadata !! name = Some m /\ meta_pages m = [Z.of_nat pn + 1]).
Proof.
  intros Hpdf Hdoc. unfold extract_fonts. rewrite Hpdf, Hdoc.
  rewrite extract_pages_occurrences.
  destruct (fold_left _ _ _) as [fonts metadata] eqn:E.
  exists fonts, metadata. split; [reflexivity|]. intros name. cbv zeta.
  pose proof (extract_fold_lookup doc name (occurrences 0 (doc_pages doc)) ∅ ∅
                (fun _ => lookup_empty name)) as Hl.
  cbv zeta in Hl. rewrite E in Hl. simpl in Hl.
  rewrite !lookup_empty in Hl.
  destruct Hl as [Hf Hm].
  split; [exact Hf|]. split; [exact Hm|]. split; [|split].
  - intros m Hmm. rewrite Hm in Hmm.
    destruct (first_extracted _ _ _) as [[[pn fi] buf]|]; [|discriminate].
    simpl in Hmm. injection Hmm as <-. exists pn, fi, buf. split; reflexivity.
  - intros Hnone. rewrite Hf, Hm, Hnone. split; reflexivity.
  - intros pn fi Hfirst [buf Hbuf]. split.
    + unfold first_seen. rewrite Hfirst. reflexivity.
    + rewrite Hm, (first_occurrence_extracted doc name _ pn fi buf Hfirst Hbuf).
      eexists. split; reflexivity.
Qed.

End Extraction.

(** ** Concrete runs *)

Lemma page_number_zero_is_served :
  ~ (1 <= 0 <= Z.of_nat (length (doc_pages one_page_doc)))
  /\ @edit_pdf page0_env sample_request empty_world
     = Ret (SendFile (edited_doc (FontName "Helvetica-Bold"))) empty_world.
Proof. split; [lia|reflexivity]. Qed.

Lemma page_number_past_last_page_fails_witness :
  (forall out w',
      @edit_pdf page2_env sample_request empty_world <> Ret (SendFile out) w')
  /\ exists exc w',
      @edit_pdf page2_env sample_request empty_world
      = Ret (JsonError 500 (Exception exc)) w'.
Proof.
  destruct (@page_number_past_last_page_fails page2_env sample_request empty_world
              "%PDF-1.7" "[...]" [sample_edit 2 "Arial"] one_page_doc
              (sample_edit 2 "Arial") 2) as [Hno H500];
    try reflexivity; try discriminate.
  - apply elem_of_cons. left. reflexivity.
  - split; [exact Hno|]. apply H500. discriminate.
Defined.

Lemma parse_color_accepts_300 :
  (forall R G B : Z, ~ exact_rgb "rgb(300, 0, 0)" R G B)
  /\ @parse_color arial_env "rgb(300, 0, 0)"
     = Ok ((300 / 255)%float, 0%float, 0%float)
  /\ (300 / 255)%float <> 0%float.
Proof.
  split; [|split; [reflexivity|discriminate]].
  intros R G B Hex. pose proof Hex as (HR & _).
  apply exact_rgb_prefix, match_rgb_complete in Hex.
  assert (Hm : match_rgb "rgb(300, 0, 0)" = Some ("300", "0", "0")) by reflexivity.
  rewrite Hm in Hex. injection Hex as Hr _ _.
  destruct (byte_numeral R HR) as (_ & Hint & _).
  rewrite <- Hr in Hint. vm_compute in Hint. lia.
Qed.

Lemma parse_color_follows_the_pattern_witness :
  @parse_color arial_env "rgb(12,   34,56) none"
  = Ok ((12 / 255)%float, (34 / 255)%float, (56 / 255)%float)
  /\ @parse_color arial_env "#ff0000" = Ok black.
Proof.
  split.
  - apply (proj1 (@parse_color_follows_the_pattern arial_env _) "12" "34" "56");
      try reflexivity; try (simpl; lia).
    exists "   ", "", " none". repeat split; discriminate.
  - apply (proj1 (proj2 (@parse_color_follows_the_pattern arial_env _))).
    intros r g b Hp. apply match_rgb_complete in Hp. discriminate.
Defined.

Lemma font_failure_falls_back_to_base14_witness :
  @render_text rubik_offline_env 0 (PyInt 10, PyFloat 30) "Hello" (PyInt 10) black
    "Rubik" 700 (St empty_world one_page_doc)
  = Ret tt
      (St (World ∅ [rubik_css_url])
         (put_op 0
            (InsertText
               (TextCall (10%float, 30%float) "Hello" 10 (FontName "Helvetica-Bold")
                  black 0))
            one_page_doc)).
Proof.
  destruct (@font_failure_falls_back_to_base14 rubik_offline_env 0
              (PyInt 10, PyFloat 30) "Hello" (PyInt 10) black "Rubik" 700
              (St empty_world one_page_doc)
              (St (World ∅ [rubik_css_url]) one_page_doc)
              (FontDownloadFailed "Rubik" 700 RequestException)
              eq_refl eq_refl eq_refl) as (_ & _ & _ & _ & Hfb & _).
  destruct (Hfb 10%float 30%float 10%float eq_refl eq_refl eq_refl) as [Hret _].
  exact (Hret eq_refl).
Defined.

Lemma download_font_cache_hit_witness :
  @download_font rubik_online_env font_downloader "Rubik" 700 empty_world
  = Ret rubik_path rubik_world
  /\ @download_font rubik_online_env font_downloader "Rubik" 700 rubik_world
     = Ret rubik_path rubik_world.
Proof.
  assert (Hfirst : @download_font rubik_online_env font_downloader "Rubik" 700
                     empty_world = Ret rubik_path rubik_world) by reflexivity.
  split; [exact Hfirst|].
  exact (proj2 (proj2 (proj2 (@download_font_cache_hit rubik_online_env
                                font_downloader "Rubik" 700))
                  empty_world rubik_world rubik_path Hfirst)).
Defined.

Lemma edit_pdf_keeps_the_page_count_witness :
  length (doc_pages (edited_doc (FontFile rubik_path)))
  = length (doc_pages one_page_doc).
Proof.
  apply (@edit_pdf_keeps_the_page_count rubik_online_env sample_request empty_world
           rubik_world "%PDF-1.7"); reflexivity.
Defined.

Lemma missing_key_on_a_pageless_document_never_answers :
  missing_required (on_page 0 no_text_edit) = true
  /\ @json_loads pageless_env "[...]" = Some [on_page 0 no_text_edit]
  /\ @fitz_open pageless_env "%PDF-1.7" = Some pageless_doc
  /\ @edit_pdf pageless_env sample_request empty_world = Diverge.
Proof. repeat split. Qed.

Lemma optional_keys_default_and_required_keys_abort_witness :
  @apply_edit no_text_env plain_edit (St empty_world one_page_doc)
  = Ret tt (St empty_world (Document [Page [] plain_ops] no_fonts))
  /\ (forall out w',
        @edit_pdf no_text_env sample_request empty_world <> Ret (SendFile out) w')
  /\ (exists exc w',
        @edit_pdf no_text_env sample_request empty_world
        = Ret (JsonError 500 (Exception exc)) w').
Proof.
  destruct (@optional_keys_default_and_required_keys_abort no_text_env
              sample_request empty_world "%PDF-1.7" "[...]"
              [sample_edit 1 "Arial"; no_text_edit] one_page_doc)
    as [Hdef Habort]; try reflexivity; try discriminate.
  split; [rewrite (Hdef plain_edit (St empty_world one_page_doc)); reflexivity|].
  destruct (Habort no_text_edit) as [Hno H500]; [|reflexivity|].
  - apply elem_of_cons. right. apply elem_of_cons. left. reflexivity.
  - split; [exact Hno|]. apply H500. discriminate.
Defined.

Lemma nonpositive_page_number_counts_from_the_end_witness :
  @apply_edit arial_env (sample_edit 0 "Arial") (St empty_world three_page_doc)
  = Ret tt (St empty_world last_page_edited)
  /\ (exists (pg pg' : page) (r : rect) (call : text_call),
        last (doc_pages three_page_doc) = Some pg
        /\ last (doc_pages last_page_edited) = Some pg'
        /\ page_content pg'
           = (page_content pg ++ [DrawRect r white white; InsertText call])%list
        /\ Edit.newText (sample_edit 0 "Arial") = Some (tc_text call))
  /\ doc_getitem (0 - 1) (St empty_world three_page_doc)
     = Ret 2%nat (St empty_world three_page_doc)
  /\ @apply_edit arial_env (sample_edit (-2) "Arial") (St empty_world three_page_doc)
     = @apply_edit arial_env (sample_edit 1 "Arial") (St empty_world three_page_doc).
Proof.
  assert (Hrun : @apply_edit arial_env (sample_edit 0 "Arial")
                   (St empty_world three_page_doc)
                 = Ret tt (St empty_world last_page_edited)) by reflexivity.
  destruct (@nonpositive_page_number_counts_from_the_end arial_env
              (St empty_world three_page_doc) 0
              ltac:(unfold page_count; simpl; lia)
              ltac:(unfold page_count; simpl; lia))
    as (Hget & _ & _ & _ & _ & _ & Hlast).
  split; [exact Hrun|].
  split; [exact (Hlast (sample_edit 0 "Arial") _ eq_refl Hrun)|].
  split; [exact Hget|].
  exact (proj1 (proj2 (proj2 (@nonpositive_page_number_counts_from_the_end arial_env
           (St empty_world three_page_doc) (-2)
           ltac:(unfold page_count; simpl; lia)
           ltac:(unfold page_count; simpl; lia))))
           (sample_edit (-2) "Arial") eq_refl).
Defined.

Lemma whiteout_box_and_text_baseline_witness :
  exists (i : nat) (pg : page) (x y width height font_size text_y : num)
         (r : rect) (call : text_call),
    Edit.x (sample_edit 1 "Arial") = Some x /\ Edit.y (sample_edit 1 "Arial") = Some y
    /\ Edit.width (sample_edit 1 "Arial") = Some width
    /\ Edit.height (sample_edit 1 "Arial") = Some height
    /\ Edit.fontSize (sample_edit 1 "Arial") = Some font_size
    /\ whiteout_rect x y width height = Ok r
    /\ text_baseline y height font_size = Ok text_y
    /\ py_float x = Ok (fst (tc_point call))
    /\ py_float text_y = Ok (snd (tc_point call))
    /\ doc_pages one_page_doc !! i = Some pg
    /\ doc_pages (edited_doc (FontName "Helvetica-Bold")) !! i
       = Some (Page (page_fonts pg)
                 (page_content pg ++ [DrawRect r white white; InsertText call]))
    /\ (forall j : nat, j <> i ->
          doc_pages (edited_doc (FontName "Helvetica-Bold")) !! j
          = doc_pages one_page_doc !! j).
Proof.
  apply (@whiteout_box_and_text_baseline arial_env (sample_edit 1 "Arial")
           (St empty_world one_page_doc)
           (St empty_world (edited_doc (FontName "Helvetica-Bold")))).
  reflexivity.
Defined.

Lemma first_seen_page_is_not_the_recorded_page :
  first_seen "Arial" (occurrences 0 (doc_pages two_arials)) = Some 0%nat
  /\ exists (fonts : gmap string string) (metadata : gmap string font_meta),
       @extract_fonts two_arials_env sample_request = JsonFonts fonts metadata
       /\ metadata !! "Arial" = Some (FontMeta "ttf" "ttf" 4 [2]).
Proof.
  split; [reflexivity|].
  exists {[ "Arial" := "OTTO" ]}, {[ "Arial" := FontMeta "ttf" "ttf" 4 [2] ]}.
  split; reflexivity.
Qed.

Lemma extract_fonts_records_first_extracted_witness :
  exists (fonts : gmap string string) (metadata : gmap string font_meta),
    @extract_fonts two_arials_env sample_request = JsonFonts fonts metadata
    /\ fonts !! "Arial" = Some "OTTO"
    /\ metadata !! "Arial" = Some (FontMeta "ttf" "ttf" 4 [2]).
Proof.
  destruct (@extract_fonts_records_first_extracted two_arials_env sample_request
              "%PDF-1.7" two_arials eq_refl eq_refl)
    as (fonts & metadata & Hx & Hnames).
  exists fonts, metadata. split; [exact Hx|].
  destruct (Hnames "Arial") as (Hf & Hm & _).
  split; [exact Hf|exact Hm].
Defined.

(** ** The downloader: outcomes and effects *)

Section Downloads.

Context `{Env}.

(** Every way a call of [download_font] can go. *)
Lemma download_font_cases (self : GoogleFontsDownloader) (family : string)
    (weight : Z) (w : world) :
  match download_font self family weight w with
  | Ret p w' =>
      p = cache_path self family weight
      /\ ((is_Some (files w !! p) /\ w' = w)
          \/ (files w !! p = None
              /\ exists (st1 st2 : Z) (css url body : string),
                  http_get (requests w) (css_url family weight) = Response st1 css
                  /\ search_font_url css = Some url
                  /\ http_get (requests w ++ [css_url family weight])%list url
                     = Response st2 body
                  /\ w' = World (<[p := body]> (files w))
                            (requests w ++ [css_url family weight; url])%list))
  | Raise e w' =>
      files w !! cache_path self family weight = None
      /\ files w' = files w
      /\ ((e = OSError /\ w' = w
           /\ stat_raises (cache_path self family weight) = true)
          \/ ((exists l : list string,
                 requests w' = (requests w ++ css_url family weight :: l)%list
                 /\ (length l <= 1)%nat)
              /\ (e = FontDownloadFailed (normalize_family family) weight
                        RequestException
                  \/ e = FontProcessingFailed (normalize_family family) weight
                           (NoFontUrl (normalize_family family) weight)
                  \/ e = FontProcessingFailed (normalize_family family) weight
                           OSError)))
  | Diverge => False
  end.
Proof.
  unfold download_font, bind, path_exists.
  destruct (bool_decide (is_Some (files w !! cache_path self family weight))) eqn:Hc.
  - apply bool_decide_eq_true in Hc. split; [reflexivity|]. left. split; [exact Hc|reflexivity].
  - apply bool_decide_eq_false in Hc. apply eq_None_not_Some in Hc.
    destruct (stat_raises (cache_path self family weight)) eqn:Hs.
    { split; [exact Hc|]. split; [reflexivity|]. left. repeat split. }
    unfold try_except, bind, requests_get, raise_for_status, write_bytes, ret, raise.
    destruct (http_get (requests w) (css_url family weight)) as [|st1 css] eqn:E1.
    { simpl. split; [exact Hc|]. split; [reflexivity|]. right. split.
      - exists []. split; [reflexivity|simpl; lia].
      - left. reflexivity. }
    simpl. destruct ((400 <=? st1) && (st1 <? 600)).
    { simpl. split; [exact Hc|]. split; [reflexivity|]. right. split.
      - exists []. split; [reflexivity|simpl; lia].
      - left. reflexivity. }
    destruct (search_font_url css) as [font_url|] eqn:E2.
    2:{ simpl. split; [exact Hc|]. split; [reflexivity|]. right. split.
        - exists []. split; [reflexivity|simpl; lia].
        - right. left. reflexivity. }
    destruct (http_get _ font_url) as [|st2 body] eqn:E3.
    { simpl. split; [exact Hc|]. split; [reflexivity|]. right. split.
      - exists [font_url]. split; [rewrite <- app_assoc; reflexivity|simpl; lia].
      - left. reflexivity. }
    simpl. destruct ((400 <=? st2) && (st2 <? 600)).
    { simpl. split; [exact Hc|]. split; [reflexivity|]. right. split.
      - exists [font_url]. split; [rewrite <- app_assoc; reflexivity|simpl; lia].
      - left. reflexivity. }
    destruct (write_ok _).
    + split; [reflexivity|]. right. split; [exact Hc|].
      exists st1, st2, css, font_url, body. repeat split; try assumption.
      simpl. rewrite <- app_assoc. reflexivity.
    + simpl. split; [exact Hc|]. split; [reflexivity|]. right. split.
      * exists [font_url]. split; [rewrite <- app_assoc; reflexivity|simpl; lia].
      * right. right. reflexivity.
Qed.

(** A call of the downloader lets the world grow. *)
Lemma download_font_grows (self : GoogleFontsDownloader) (family : string)
    (weight : Z) (w : world) :
  match download_font self family weight w with
  | Ret _ w' | Raise _ w' => world_grows w w'
  | Diverge => False
  end.
Proof.
  pose proof (download_font_cases self family weight w) as Hc.
  destruct (download_font self family weight w) as [p w'|e w'|]; [| |exact Hc].
  - destruct Hc as [-> [[_ ->]|(Hnone & st1 & st2 & css & url & body & _ & _ & _ & ->)]].
    + split; [reflexivity|]. exists []. rewrite app_nil_r. reflexivity.
    + split; [apply insert_subseteq, Hnone|]. simpl. eauto.
  - destruct Hc as (_ & Hf & [(_ & -> & _)|[(l & Hl & _) _]]).
    + split; [reflexivity|]. exists []. rewrite app_nil_r. reflexivity.
    + split; [rewrite Hf; reflexivity|eauto].
Qed.


(** X2: a call of [download_font] makes at most two requests, the first
    one for the stylesheet of the family and weight; it never changes or
    removes a file that exists, and the only path it can write is its own
    cache path. *)
Theorem download_font_touches_only_its_cache_file
    (self : GoogleFontsDownloader) (family : string) (weight : Z) (w : world) :
  match download_font self family weight w with
  | Ret _ w' | Raise _ w' =>
      files w ⊆ files w'
      /\ (forall q : string,
            q <> cache_path self family weight -> files w' !! q = files w !! q)
      /\ exists l : list string,
           requests w' = (requests w ++ l)%list /\ (length l <= 2)%nat
           /\ (forall u : string, head l = Some u -> u = css_url family weight)
  | Diverge => False
  end.
Proof.
  pose proof (download_font_cases self family weight w) as Hc.
  pose proof (download_font_grows self family weight w) as Hg.
  destruct (download_font self family weight w) as [p w'|e w'|]; [| |exact Hc].
  - destruct Hg as [Hsub _]. split; [exact Hsub|].
    destruct Hc as [-> [[_ ->]|(_ & st1 & st2 & css & url & body & _ & _ & _ & ->)]].
    + split; [reflexivity|]. exists []. rewrite app_nil_r.
      repeat split; [simpl; lia|discriminate].
    + split.
      * intros q Hq. simpl. apply lookup_insert_ne. congruence.
      * exists [css_url family weight; url]. repeat split; [simpl; lia|].
        intros u [= <-]. reflexivity.
  - destruct Hg as [Hsub _]. split; [exact Hsub|].
    destruct Hc as (_ & Hf & [(_ & -> & _)|[(l & Hl & Hlen) _]]).
    + split; [reflexivity|]. exists []. rewrite app_nil_r.
      repeat split; [simpl; lia|discriminate].
    + split.
      * intros q _. rewrite Hf. reflexivity.
      * exists (css_url family weight :: l). repeat split; [exact Hl|simpl; lia|].
        intros u [= <-]. reflexivity.
Qed.

End Downloads.

(** ** The font URL of a stylesheet *)

Lemma match_font_url_iff (s u : string) :
  match_font_url s = Some u <-> font_url_at s u.
Proof.
  unfold match_font_url, font_url_at. split.
  - intros Hm.
    destruct (strip_prefix "url(" s) as [s1|] eqn:E1; [|discriminate].
    destruct (strip_prefix gstatic s1) as [s2|] eqn:E2; [|discriminate].
    destruct (span not_rparen s2) as [b s3] eqn:E3.
    destruct (is_empty b) eqn:Eb; [discriminate|].
    destruct (strip_prefix ")" s3) as [s4|] eqn:E4; [|discriminate].
    injection Hm as <-.
    apply strip_prefix_Some in E1, E2, E4.
    apply span_spec in E3 as (-> & Hall & _).
    apply is_empty_false in Eb.
    exists b, s4. subst. rewrite append_assoc. repeat split; assumption.
  - intros (body & post & -> & -> & Hne & Hall).
    rewrite strip_prefix_app, append_assoc, strip_prefix_app.
    rewrite (span_app not_rparen body); [|exact Hall|reflexivity].
    apply is_empty_false in Hne. rewrite Hne.
    rewrite strip_prefix_app. reflexivity.
Qed.

Lemma search_font_url_unfold (s : string) :
  search_font_url s
  = match match_font_url s with
    | Some u => Some u
    | None =>
        match s with
        | EmptyString => None
        | String _ t => search_font_url t
        end
    end.
Proof. destruct s; reflexivity. Qed.

Lemma append_eq_nil (a b : string) :
  a +:+ b = EmptyString -> a = EmptyString /\ b = EmptyString.
Proof.
  destruct a as [|c a]; push_append; [intros ->; split; reflexivity|discriminate].
Qed.

(** X3: the font URL that [download_font] takes from the stylesheet is the
    group of the leftmost match of
    [url\((https://fonts\.gstatic\.com/[^)]+)\)]: it stands in the
    stylesheet between "url(" and ")", starts with the font host, has at
    least one character after it and no closing parenthesis, and no
    earlier position of the stylesheet starts a match; and no URL is found
    exactly when no position of the stylesheet starts a match. *)
Theorem search_font_url_is_the_leftmost_match (css_text : string) :
  match search_font_url css_text with
  | Some u =>
      exists pre rest : string,
        css_text = pre +:+ rest /\ font_url_at rest u
        /\ forall pre' rest' u' : string,
             css_text = pre' +:+ rest' ->
             (String.length pre' < String.length pre)%nat ->
             ~ font_url_at rest' u'
  | None =>
      forall pre rest u : string, css_text = pre +:+ rest -> ~ font_url_at rest u
  end.
Proof.
  induction css_text as [|c t IH]; rewrite search_font_url_unfold.
  - simpl. intros pre rest u Heq Hat. symmetry in Heq.
    apply append_eq_nil in Heq as [_ ->].
    apply match_font_url_iff in Hat. discriminate.
  - destruct (match_font_url (String c t)) as [u|] eqn:Em.
    + exists EmptyString, (String c t). split; [reflexivity|].
      split; [apply match_font_url_iff, Em|].
      intros pre' rest' u' _ Hlt. simpl in Hlt. lia.
    + destruct (search_font_url t) as [u|].
      * destruct IH as (pre & rest & -> & Hat & Hleft).
        exists (String c pre), rest. split; [reflexivity|]. split; [exact Hat|].
        intros pre' rest' u' Heq Hlt Hat'.
        destruct pre' as [|c' pre']; push_append.
        -- subst rest'. apply match_font_url_iff in Hat'. congruence.
        -- injection Heq as _ Heq. apply (Hleft pre' rest' u' Heq); [|exact Hat'].
           simpl in Hlt. lia.
      * intros pre rest u Heq Hat.
        destruct pre as [|c' pre]; push_append.
        -- subst rest. apply match_font_url_iff in Hat. congruence.
        -- injection Heq as _ Heq. exact (IH pre rest u Heq Hat).
Qed.

(** ** The edit handler: what a request leaves behind *)

Section Effects.

Context `{Env}.

Lemma preserves_weaken {A} (R R' : st -> st -> Prop) (m : M st A) :
  (forall s s', R s s' -> R' s s') -> preserves R m -> preserves R' m.
Proof.
  intros Himp Hm s. specialize (Hm s). destruct (m s); auto.
Qed.

Section Rules.

Variable R : st -> st -> Prop.
Hypothesis R_refl : forall s, R s s.
Hypothesis R_trans : forall s1 s2 s3, R s1 s2 -> R s2 s3 -> R s1 s3.

Lemma preserves_ret {A} (a : A) : preserves R (ret a).
Proof using R_refl. intros s. apply R_refl. Qed.

Lemma preserves_lift {A} (r : result A) : preserves R (lift r).
Proof using R_refl. intros s. destruct r; apply R_refl. Qed.

Lemma preserves_bind {A B} (m : M st A) (k : A -> M st B) :
  preserves R m -> (forall a, preserves R (k a)) -> preserves R (bind m k).
Proof using R_trans.
  intros Hm Hk s. unfold bind. specialize (Hm s).
  destruct (m s) as [a s1|e s1|]; try assumption.
  specialize (Hk a s1). destruct (k a s1); eauto.
Qed.

Lemma preserves_try {A} (m : M st A) (h : exn -> M st A) :
  preserves R m -> (forall e, preserves R (h e)) -> preserves R (try_except m h).
Proof using R_trans.
  intros Hm Hh s. unfold try_except. specialize (Hm s).
  destruct (m s) as [a s1|e s1|]; try assumption.
  specialize (Hh e s1). destruct (h e s1); eauto.
Qed.

Lemma preserves_for_each {A} (body : A -> M st unit) (l : list A) :
  (forall a, a ∈ l -> preserves R (body a)) -> preserves R (for_each body l).
Proof using R_refl R_trans.
  induction l as [|a l IH]; intros Hb; simpl.
  - apply preserves_ret.
  - apply preserves_bind.
    + apply Hb, elem_of_cons. left. reflexivity.
    + intros _. apply IH. intros b Hin. apply Hb, elem_of_cons. right. exact Hin.
Qed.

End Rules.

Lemma page_extends_refl (p : page) : page_extends p p.
Proof. split; [reflexivity|]. exists []. rewrite app_nil_r. reflexivity. Qed.

Lemma page_extends_trans (p1 p2 p3 : page) :
  page_extends p1 p2 -> page_extends p2 p3 -> page_extends p1 p3.
Proof.
  intros [Hf1 [o1 Hc1]] [Hf2 [o2 Hc2]]. split; [congruence|].
  exists (o1 ++ o2)%list. rewrite Hc2, Hc1, app_assoc. reflexivity.
Qed.

Lemma doc_extends_refl (d : document) : doc_extends d d.
Proof.
  split; [reflexivity|]. apply Forall_Forall2_diag, Forall_forall.
  intros p _. apply page_extends_refl.
Qed.

Lemma doc_extends_trans (d1 d2 d3 : document) :
  doc_extends d1 d2 -> doc_extends d2 d3 -> doc_extends d1 d3.
Proof.
  intros [Hx1 Hp1] [Hx2 Hp2]. split; [congruence|].
  eapply Forall2_trans; [|exact Hp1|exact Hp2]. apply page_extends_trans.
Qed.

Lemma world_grows_refl (w : world) : world_grows w w.
Proof. split; [reflexivity|]. exists []. rewrite app_nil_r. reflexivity. Qed.

Lemma world_grows_trans (w1 w2 w3 : world) :
  world_grows w1 w2 -> world_grows w2 w3 -> world_grows w1 w3.
Proof.
  intros [Hf1 [l1 Hr1]] [Hf2 [l2 Hr2]]. split; [etransitivity; eassumption|].
  exists (l1 ++ l2)%list. rewrite Hr2, Hr1, app_assoc. reflexivity.
Qed.

Lemma st_quiet_refl (s : st) : st_quiet s s.
Proof. split; [reflexivity|apply doc_extends_refl]. Qed.

Lemma st_quiet_trans (s1 s2 s3 : st) : st_quiet s1 s2 -> st_quiet s2 s3 -> st_quiet s1 s3.
Proof.
  intros [Hw1 Hd1] [Hw2 Hd2]. split; [congruence|].
  eapply doc_extends_trans; eassumption.
Qed.

Lemma st_grows_refl (s : st) : st_grows s s.
Proof. split; [apply world_grows_refl|apply doc_extends_refl]. Qed.

Lemma st_grows_trans (s1 s2 s3 : st) : st_grows s1 s2 -> st_grows s2 s3 -> st_grows s1 s3.
Proof.
  intros [Hw1 Hd1] [Hw2 Hd2].
  split; [eapply world_grows_trans|eapply doc_extends_trans]; eassumption.
Qed.

Lemma st_quiet_grows (s s' : st) : st_quiet s s' -> st_grows s s'.
Proof. intros [Hw Hd]. split; [rewrite Hw; apply world_grows_refl|exact Hd]. Qed.

Lemma put_op_extends (i : nat) (op : draw_op) (d : document) :
  doc_extends d (put_op i op d).
Proof.
  split; [reflexivity|]. unfold put_op. simpl.
  apply Forall2_alter_r.
  - apply Forall_Forall2_diag, Forall_forall. intros p _. apply page_extends_refl.
  - intros p p' _ _ [Hf [ops Hc]]. split; [exact Hf|]. simpl.
    exists (ops ++ [op])%list. rewrite Hc, app_assoc. reflexivity.
Qed.

Lemma quiet_doc_getitem (i : Z) : preserves st_quiet (doc_getitem i).
Proof.
  intros s. unfold doc_getitem.
  destruct (_ <=? i); [apply st_quiet_refl|].
  destruct (0 <=? i); [apply st_quiet_refl|].
  destruct (_ =? 0); [exact I|apply st_quiet_refl].
Qed.

Lemma quiet_draw_rect (i : nat) (r : rect) (a b : rgb) :
  preserves st_quiet (draw_rect i r a b).
Proof.
  intros s. unfold draw_rect.
  destruct (fitz_draw_rect_ok _ _ _); [|apply st_quiet_refl].
  split; [reflexivity|apply put_op_extends].
Qed.

Lemma quiet_insert_text (i : nat) (pt : num * num) (text : string) (fs : num)
    (font : font_src) (c : rgb) :
  preserves st_quiet (insert_text i pt text fs font c).
Proof.
  unfold insert_text.
  repeat (apply (preserves_bind _ st_quiet_trans);
          [apply (preserves_lift _ st_quiet_refl)|intros ?]).
  intros s. destruct (fitz_insert_text_ok _ _ _ _); [|apply st_quiet_refl].
  split; [reflexivity|apply put_op_extends].
Qed.

Lemma grows_download (family : string) (weight : Z) :
  preserves st_grows (in_world (download_font font_downloader family weight)).
Proof.
  intros s. unfold in_world.
  pose proof (download_font_grows font_downloader family weight (st_world s)) as Hg.
  destruct (download_font _ _ _ _); try exact I;
    (split; [exact Hg|apply doc_extends_refl]).
Qed.

Lemma grows_render_text (i : nat) (pt : num * num) (text : string) (fs : num)
    (c : rgb) (family : string) (weight : Z) :
  preserves st_grows (render_text i pt text fs c family weight).
Proof.
  assert (Hins : forall font, preserves st_grows (insert_text i pt text fs font c)).
  { intros font. apply (preserves_weaken st_quiet); [apply st_quiet_grows|].
    apply quiet_insert_text. }
  unfold render_text. apply (preserves_try _ st_grows_trans); [|intros e; apply Hins].
  destruct (negb (is_empty family) && negb (is_generic family)); [|apply Hins].
  unfold google_font_text. apply (preserves_bind _ st_grows_trans).
  - apply grows_download.
  - intros path. apply Hins.
Qed.

(** With an empty or generic family the block makes no request. *)
Lemma quiet_render_text (i : nat) (pt : num * num) (text : string) (fs : num)
    (c : rgb) (family : string) (weight : Z) :
  is_empty family || is_generic family = true ->
  preserves st_quiet (render_text i pt text fs c family weight).
Proof.
  intros Hb. unfold render_text.
  replace (negb (is_empty family) && negb (is_generic family)) with false
    by (destruct (is_empty family), (is_generic family); simpl in *; congruence).
  apply (preserves_try _ st_quiet_trans); [|intros e]; apply quiet_insert_text.
Qed.

Lemma preserves_bind_Ok {A B} (R : st -> st -> Prop) (a : A) (k : A -> M st B) :
  preserves R (k a) -> preserves R (bind (lift (Ok a)) k).
Proof. intros Hk s. exact (Hk s). Qed.

(** The loop body up to the [try] block is quiet; the block is what the
    relation is asked of. *)
Lemma preserves_apply_edit (R : st -> st -> Prop) (e : Edit.t) :
  (forall s, R s s) -> (forall s1 s2 s3, R s1 s2 -> R s2 s3 -> R s1 s3) ->
  (forall s s', st_quiet s s' -> R s s') ->
  (forall i pt text fs c weight,
      preserves R (render_text i pt text fs c (edit_family e) weight)) ->
  preserves R (apply_edit e).
Proof.
  intros Hrefl Htrans Hq Hrender. unfold apply_edit.
  rewrite family_of_total. fold (edit_family e).
  repeat first
    [ apply preserves_bind_Ok
    | apply (preserves_bind _ Htrans);
      [first [ apply (preserves_lift _ Hrefl)
             | apply (preserves_weaken st_quiet _ _ Hq), quiet_doc_getitem
             | apply (preserves_weaken st_quiet _ _ Hq), quiet_draw_rect ]
      |intros ?] ].
  apply Hrender.
Qed.

Lemma grows_apply_edit (e : Edit.t) : preserves st_grows (apply_edit e).
Proof.
  apply preserves_apply_edit.
  - apply st_grows_refl.
  - apply st_grows_trans.
  - apply st_quiet_grows.
  - intros. apply grows_render_text.
Qed.

Lemma quiet_apply_edit (e : Edit.t) :
  uses_base14 e = true -> preserves st_quiet (apply_edit e).
Proof.
  intros Hb. apply preserves_apply_edit.
  - apply st_quiet_refl.
  - apply st_quiet_trans.
  - auto.
  - intros. apply quiet_render_text. exact Hb.
Qed.

End Effects.

(** ** The edit handler: the whole request *)

Section WholeRequest.

Context `{Env}.

(** A request that reaches the loop answers as the loop ends. *)
Lemma edit_pdf_loop (req : request) (w : world) (pdf js : string)
    (l : list Edit.t) (doc : document) :
  files_pdf req = Some pdf -> form_edits req = Some js -> js <> "" ->
  json_loads js = Some l -> fitz_open pdf = Some doc ->
  edit_pdf req w
  = match for_each apply_edit l (St w doc) with
    | Ret _ s =>
        if fitz_save_ok (st_doc s) then Ret (SendFile (st_doc s)) (st_world s)
        else Ret (JsonError 500 (Exception FitzError)) (st_world s)
    | Raise e s => Ret (JsonError 500 (Exception e)) (st_world s)
    | Diverge => Diverge
    end.
Proof.
  intros Hpdf Hjs Hne Hl Hdoc.
  unfold edit_pdf, try_except, bind. rewrite Hpdf, Hjs. simpl.
  apply is_empty_false in Hne. rewrite Hne, Hl, Hdoc. simpl.
  unfold with_doc, save.
  destruct (for_each apply_edit l (St w doc)) as [u s|e s|]; try reflexivity.
  destruct (fitz_save_ok (st_doc s)); reflexivity.
Qed.

(** The requests that do not reach the loop. *)
Lemma edit_pdf_early (req : request) (w : world) :
  (files_pdf req = None ->
   edit_pdf req w = Ret (JsonError 400 (Message "No PDF file provided")) w)
  /\ (forall pdf : string,
        files_pdf req = Some pdf ->
        form_edits req = None \/ form_edits req = Some "" ->
        edit_pdf req w = Ret (JsonError 400 (Message "No edits provided")) w)
  /\ (forall pdf js : string,
        files_pdf req = Some pdf -> form_edits req = Some js -> js <> "" ->
        json_loads js = None ->
        edit_pdf req w = Ret (JsonError 500 (Exception JSONDecodeError)) w)
  /\ (forall (pdf js : string) (l : list Edit.t),
        files_pdf req = Some pdf -> form_edits req = Some js -> js <> "" ->
        json_loads js = Some l -> fitz_open pdf = None ->
        edit_pdf req w = Ret (JsonError 500 (Exception FitzError)) w).
Proof.
  unfold edit_pdf, try_except, bind. repeat split.
  - intros ->. reflexivity.
  - intros pdf -> [-> | ->]; reflexivity.
  - intros pdf js -> -> Hne Hl. simpl. apply is_empty_false in Hne.
    rewrite Hne, Hl. reflexivity.
  - intros pdf js l -> -> Hne Hl Hdoc. simpl. apply is_empty_false in Hne.
    rewrite Hne, Hl, Hdoc. reflexivity.
Qed.

(** X4: the status codes of the edit handler.  Without the [pdf] file the
    answer is 400, and with it but without a non-empty [edits] field it is
    400 too, whatever else is wrong; a field that does not decode or a file
    that does not open gives 500; in each of these cases nothing outside
    the process has changed.  The handler lets no exception out: any other
    answer is a 500 or the saved document, and only a document without
    pages can keep it from answering. *)
Theorem edit_pdf_status_codes (req : request) (w : world) :
  (files_pdf req = None ->
   edit_pdf req w = Ret (JsonError 400 (Message "No PDF file provided")) w)
  /\ (forall pdf : string,
        files_pdf req = Some pdf ->
        form_edits req = None \/ form_edits req = Some "" ->
        edit_pdf req w = Ret (JsonError 400 (Message "No edits provided")) w)
  /\ (forall pdf js : string,
        files_pdf req = Some pdf -> form_edits req = Some js -> js <> "" ->
        json_loads js = None ->
        edit_pdf req w = Ret (JsonError 500 (Exception JSONDecodeError)) w)
  /\ (forall (pdf js : string) (l : list Edit.t),
        files_pdf req = Some pdf -> form_edits req = Some js -> js <> "" ->
        json_loads js = Some l -> fitz_open pdf = None ->
        edit_pdf req w = Ret (JsonError 500 (Exception FitzError)) w)
  /\ (forall (e : exn) (w' : world), edit_pdf req w <> Raise e w')
  /\ (forall (resp : response) (w' : world),
        edit_pdf req w = Ret resp w' ->
        (exists (status : Z) (err : error_body),
            resp = JsonError status err /\ (status = 400 \/ status = 500))
        \/ (exists out : document, resp = SendFile out /\ fitz_save_ok out = true))
  /\ (edit_pdf req w = Diverge ->
      exists (pdf : string) (doc : document),
        files_pdf req = Some pdf /\ fitz_open pdf = Some doc /\ doc_pages doc = []).
Proof.
  destruct (edit_pdf_early req w) as (H1 & H2 & H3 & H4).
  do 4 (split; [assumption|]).
  assert (Hcases :
    match edit_pdf req w with
    | Ret resp w' =>
        (exists (status : Z) (err : error_body),
            resp = JsonError status err /\ (status = 400 \/ status = 500))
        \/ (exists out : document, resp = SendFile out /\ fitz_save_ok out = true)
    | Raise _ _ => False
    | Diverge =>
        exists (pdf : string) (doc : document),
          files_pdf req = Some pdf /\ fitz_open pdf = Some doc /\ doc_pages doc = []
    end).
  { destruct (files_pdf req) as [pdf|] eqn:Hpdf;
      [|rewrite (H1 eq_refl); left; eauto].
    destruct (form_edits req) as [js|] eqn:Hjs;
      [|rewrite (H2 pdf eq_refl (or_introl eq_refl)); left; eauto].
    destruct (String.eqb_spec js "") as [->|Hne];
      [rewrite (H2 pdf eq_refl (or_intror eq_refl)); left; eauto|].
    destruct (json_loads js) as [l|] eqn:Hl;
      [|rewrite (H3 pdf js eq_refl eq_refl Hne Hl); left; eauto].
    destruct (fitz_open pdf) as [doc|] eqn:Hdoc;
      [|rewrite (H4 pdf js l eq_refl eq_refl Hne Hl Hdoc); left; eauto].
    rewrite (edit_pdf_loop req w pdf js l doc Hpdf Hjs Hne Hl Hdoc).
    pose proof (keeps_for_each apply_edit l keeps_apply_edit (St w doc)) as Hk.
    destruct (for_each apply_edit l (St w doc)) as [u s|e s|].
    - destruct (fitz_save_ok (st_doc s)) eqn:Hs; [right|left]; eauto.
    - left. eauto.
    - exists pdf, doc. split; [reflexivity|]. split; [exact Hdoc|].
      unfold page_count in Hk. simpl in Hk.
      destruct (doc_pages doc); [reflexivity|discriminate]. }
  split; [|split].
  - intros e w' Heq. rewrite Heq in Hcases. exact Hcases.
  - intros resp w' Heq. rewrite Heq in Hcases. exact Hcases.
  - intros Heq. rewrite Heq in Hcases. exact Hcases.
Qed.

(** What a request does to the state, however its loop ends. *)
Lemma grows_request (l : list Edit.t) : preserves st_grows (for_each apply_edit l).
Proof.
  apply preserves_for_each; [apply st_grows_refl|apply st_grows_trans|].
  intros e _. apply grows_apply_edit.
Qed.

(** X5: the PDF that the edit handler sends has the pages of the opened
    document, and each page has all the content it had, in the same order,
    followed by what the request has drawn.  The white rectangle covers
    earlier content, it does not take it away. *)
Theorem edit_pdf_only_adds_to_pages (req : request) (w w' : world)
    (pdf : string) (doc out : document) :
  files_pdf req = Some pdf -> fitz_open pdf = Some doc ->
  edit_pdf req w = Ret (SendFile out) w' ->
  length (doc_pages out) = length (doc_pages doc)
  /\ forall (j : nat) (pg : page),
       doc_pages doc !! j = Some pg ->
       exists (pg' : page) (ops : list draw_op),
         doc_pages out !! j = Some pg'
         /\ page_content pg' = (page_content pg ++ ops)%list.
Proof.
  intros Hpdf Hdoc Hret.
  assert (Hext : doc_extends doc out).
  { revert Hret. unfold edit_pdf, try_except, bind. rewrite Hpdf.
    destruct (is_empty _); [discriminate|].
    destruct (json_loads _) as [l|]; [|discriminate]. simpl.
    rewrite Hdoc. simpl. unfold with_doc.
    pose proof (grows_request l (St w doc)) as Hg.
    destruct (for_each apply_edit l (St w doc)) as [u s1|e s1|];
      [|discriminate|discriminate].
    unfold save. destruct (fitz_save_ok _); [|discriminate].
    unfold ret. intros [= <- <-]. exact (proj2 Hg). }
  destruct Hext as [_ Hp]. split.
  - symmetry. exact (Forall2_length _ _ _ Hp).
  - intros j pg Hj.
    destruct (Forall2_lookup_l _ _ _ _ _ Hp Hj) as (pg' & Hj' & _ & ops & Hc).
    exists pg', ops. split; assumption.
Qed.

(** X8: whatever a request to the edit handler ends with, every file that
    was on disk is still there with its content, and the requests to the
    font service made before it are followed by its own; the handler
    never deletes or rewrites a cached font. *)
Theorem edit_pdf_keeps_the_cache (req : request) (w : world) :
  match edit_pdf req w with
  | Ret _ w' =>
      files w ⊆ files w'
      /\ exists l : list string, requests w' = (requests w ++ l)%list
  | Raise _ _ => False
  | Diverge => True
  end.
Proof.
  unfold edit_pdf, try_except, bind.
  destruct (files_pdf req) as [pdf|]; [|apply world_grows_refl].
  destruct (is_empty _); [apply world_grows_refl|].
  destruct (json_loads _) as [l|]; simpl; [|apply world_grows_refl].
  destruct (fitz_open pdf) as [doc|]; simpl; [|apply world_grows_refl].
  unfold with_doc.
  pose proof (grows_request l (St w doc)) as Hg.
  destruct (for_each apply_edit l (St w doc)) as [u s1|e s1|]; [| |exact I].
  - unfold save. destruct (fitz_save_ok _); exact (proj1 Hg).
  - exact (proj1 Hg).
Qed.

(** X7: a request whose instructions all have an empty or generic family
    (Georgia, serif, sans-serif, Arial, Helvetica) makes no request to the
    font service and writes no file, however it ends. *)
Theorem base14_requests_stay_offline (req : request) (w w' : world)
    (js : string) (l : list Edit.t) (resp : response) :
  form_edits req = Some js -> json_loads js = Some l ->
  (forall e : Edit.t, e ∈ l -> uses_base14 e = true) ->
  edit_pdf req w = Ret resp w' ->
  w' = w.
Proof.
  intros Hjs Hl Hall. unfold edit_pdf, try_except, bind. rewrite Hjs. simpl.
  destruct (files_pdf req) as [pdf|]; [|intros [= _ <-]; reflexivity].
  destruct (is_empty js); [intros [= _ <-]; reflexivity|].
  rewrite Hl. simpl.
  destruct (fitz_open pdf) as [doc|]; simpl; [|intros [= _ <-]; reflexivity].
  unfold with_doc.
  assert (Hq : preserves st_quiet (for_each apply_edit l)).
  { apply preserves_for_each; [apply st_quiet_refl|apply st_quiet_trans|].
    intros e He. apply quiet_apply_edit, Hall, He. }
  specialize (Hq (St w doc)).
  destruct (for_each apply_edit l (St w doc)) as [u s1|e s1|]; [| |discriminate].
  - unfold save. destruct (fitz_save_ok _); intros [= _ <-]; exact (proj1 Hq).
  - intros [= _ <-]. exact (proj1 Hq).
Qed.

End WholeRequest.

(** ** The edit handler: two operations per instruction *)

Section Counting.

Context `{Env}.

(** An instruction that returns has put a rectangle and then a text on
    one page of the document. *)
Lemma apply_edit_ret_shape (e : Edit.t) (s s' : st) (u : unit) :
  apply_edit e s = Ret u s' ->
  exists (i : nat) (r : rect) (call : text_call),
    (i < page_count s)%nat
    /\ st_doc s'
       = put_op i (InsertText call) (put_op i (DrawRect r white white) (st_doc s)).
Proof.
  intros Happ. apply apply_edit_ret_ops in Happ
    as (pn & i & x & y & width & height & r & call & _ & Hget & _ & _ & _ & _ & _ & _
        & Hd).
  apply doc_getitem_ret in Hget as [_ Hi]. eauto.
Qed.

Lemma total_ops_put_op (i : nat) (op : draw_op) (d : document) :
  (i < length (doc_pages d))%nat -> total_ops (put_op i op d) = S (total_ops d).
Proof.
  unfold total_ops, put_op. simpl.
  set (g := fun p => Page (page_fonts p) (page_content p ++ [op])).
  generalize (doc_pages d). clear d.
  intros l. revert i. induction l as [|p l IH]; intros i Hi; [simpl in Hi; lia|].
  destruct i as [|i].
  - change (alter g 0%nat (p :: l)) with (g p :: l). simpl.
    rewrite length_app. simpl. lia.
  - change (alter g (S i) (p :: l)) with (p :: alter g i l). simpl.
    rewrite IH by (simpl in Hi; lia). lia.
Qed.

Lemma for_each_total_ops (l : list Edit.t) (s s' : st) (u : unit) :
  for_each apply_edit l s = Ret u s' ->
  total_ops (st_doc s') = (total_ops (st_doc s) + 2 * length l)%nat.
Proof.
  revert s. induction l as [|e l IH]; intros s; simpl.
  - unfold ret. intros [= _ <-]. lia.
  - unfold bind. destruct (apply_edit e s) as [v s1| |] eqn:Ea;
      [|discriminate|discriminate].
    intros Hrest. apply IH in Hrest. rewrite Hrest.
    apply apply_edit_ret_shape in Ea as (i & r & call & Hi & ->).
    unfold page_count in Hi.
    rewrite total_ops_put_op by (rewrite put_op_pages; exact Hi).
    rewrite total_ops_put_op by exact Hi. lia.
Qed.

(** What a loop that returns has drawn, instruction by instruction. *)
Lemma for_each_draws (l : list Edit.t) (s s' : st) (u : unit) :
  for_each apply_edit l s = Ret u s' ->
  exists steps : list drawing,
    Forall2 (draws (page_count s)) l steps
    /\ forall (j : nat) (pg : page),
         doc_pages (st_doc s) !! j = Some pg ->
         exists pg' : page,
           doc_pages (st_doc s') !! j = Some pg'
           /\ page_content pg' = (page_content pg ++ ops_on j steps)%list.
Proof.
  revert s. induction l as [|e l IH]; intros s; simpl.
  - unfold ret. intros [= _ <-]. exists []. split; [constructor|].
    intros j pg Hj. exists pg. split; [exact Hj|]. simpl. rewrite app_nil_r. reflexivity.
  - unfold bind. destruct (apply_edit e s) as [v s1| |] eqn:Ea;
      [|discriminate|discriminate].
    intros Hrest. apply IH in Hrest as (steps & Hall & Hpages).
    pose proof (keeps_apply_edit e s) as Hk. rewrite Ea in Hk.
    apply apply_edit_ret_ops in Ea
      as (pn & i & x & y & width & height & r & call & Hpn & Hget & Hnt & Hx & Hy
          & Hw & Hh & Hr & Hd).
    apply doc_getitem_index in Hget as (_ & Hi & Hmod).
    exists ((i, r, call) :: steps). split.
    + constructor; [|rewrite <- Hk; exact Hall].
      exists pn, x, y, width, height. repeat split; assumption.
    + intros j pg Hj.
      pose proof (put_op_lookup i j (InsertText call) _ _
                    (put_op_lookup i j (DrawRect r white white) _ _ Hj)) as Hj1.
      rewrite <- Hd in Hj1.
      destruct (Hpages j _ Hj1) as (pg' & Hj' & Hc).
      exists pg'. split; [exact Hj'|]. rewrite Hc. simpl.
      destruct (Nat.eqb i j); simpl; rewrite <- ?app_assoc, ?app_nil_r; reflexivity.
Qed.

(** X6: when the edit handler sends a PDF, each instruction of the list
    has drawn once, in the order of the list: on the page that its
    [pageNumber - 1] selects, the white-out box of its [x], [y], [width]
    and [height] and then its [newText].  Every page of the document has
    its earlier content followed by the rectangles and texts of the
    instructions for that page, and nothing else; in all the document has
    two operations more per instruction. *)
Theorem edit_pdf_adds_two_operations_per_edit (req : request) (w w' : world)
    (pdf js : string) (l : list Edit.t) (doc out : document) :
  files_pdf req = Some pdf -> form_edits req = Some js -> js <> "" ->
  json_loads js = Some l -> fitz_open pdf = Some doc ->
  edit_pdf req w = Ret (SendFile out) w' ->
  exists steps : list drawing,
    Forall2 (draws (length (doc_pages doc))) l steps
    /\ (forall (j : nat) (pg : page),
          doc_pages doc !! j = Some pg ->
          exists pg' : page,
            doc_pages out !! j = Some pg'
            /\ page_content pg' = (page_content pg ++ ops_on j steps)%list)
    /\ length (doc_pages out) = length (doc_pages doc)
    /\ total_ops out = (total_ops doc + 2 * length l)%nat.
Proof.
  intros Hpdf Hjs Hne Hl Hdoc.
  rewrite (edit_pdf_loop req w pdf js l doc Hpdf Hjs Hne Hl Hdoc).
  pose proof (keeps_for_each apply_edit l keeps_apply_edit (St w doc)) as Hk.
  destruct (for_each apply_edit l (St w doc)) as [u s|e s|] eqn:E;
    [|discriminate|discriminate].
  destruct (fitz_save_ok (st_doc s)); [|discriminate].
  intros [= <- _].
  destruct (for_each_draws l _ _ _ E) as (steps & Hall & Hpages).
  exists steps. split; [exact Hall|]. split; [exact Hpages|].
  split; [exact Hk|exact (for_each_total_ops l _ _ _ E)].
Qed.

(** With the font in the cache the [try] block makes no request and
    writes nothing. *)
Lemma render_text_cached (i : nat) (pt : num * num) (text : string) (fs : num)
    (c : rgb) (family : string) (weight : Z) (s : st) :
  is_Some (files (st_world s) !! cache_path font_downloader family weight) ->
  match render_text i pt text fs c family weight s with
  | Ret _ s' | Raise _ s' => st_world s' = st_world s
  | Diverge => False
  end.
Proof.
  intros Hin.
  assert (Hins : forall font s0,
             match insert_text i pt text fs font c s0 with
             | Ret _ s' | Raise _ s' => st_world s' = st_world s0
             | Diverge => False
             end).
  { intros font s0. unfold insert_text, bind.
    destruct (py_float (fst pt)); cbn [lift ret raise]; [|reflexivity].
    destruct (py_float (snd pt)); cbn [lift ret raise]; [|reflexivity].
    destruct (py_float fs); cbn [lift ret raise]; [|reflexivity].
    destruct (fitz_insert_text_ok _ _ _ _); reflexivity. }
  unfold render_text, try_except.
  destruct (negb (is_empty family) && negb (is_generic family)).
  - unfold google_font_text, bind, in_world.
    rewrite (download_font_cached font_downloader family weight _ Hin).
    pose proof (Hins (FontFile (cache_path font_downloader family weight))
                  (St (st_world s) (st_doc s))) as H1.
    destruct (insert_text i pt text fs _ c (St (st_world s) (st_doc s)))
      as [v s1|e s1|]; [exact H1| |exact H1].
    pose proof (Hins (FontName (base14_font weight)) s1) as H2.
    destruct (insert_text i pt text fs _ c s1) as [v s2|e2 s2|];
      [simpl in *; congruence|simpl in *; congruence|exact H2].
  - pose proof (Hins (FontName (base14_font weight)) s) as H1.
    destruct (insert_text i pt text fs _ c s) as [v s1|e s1|]; [exact H1| |exact H1].
    pose proof (Hins (FontName (base14_font weight)) s1) as H2.
    destruct (insert_text i pt text fs _ c s1) as [v s2|e2 s2|];
      [congruence|congruence|exact H2].
Qed.

(** X9: once an instruction has been written with a downloaded font, any
    later [try] block for the same family and weight, in this request or a
    later one, finds the file in the cache: it makes no request to the
    font service and writes nothing, whatever else has been cached in
    between. *)
Theorem downloaded_font_is_reused (page page' : nat) (point point' : num * num)
    (new_text new_text' : string) (font_size font_size' : num) (color color' : rgb)
    (family : string) (font_weight : Z) (s s1 s2 : st) :
  google_font_text page point new_text font_size color family font_weight s
  = Ret tt s1 ->
  files (st_world s1) ⊆ files (st_world s2) ->
  match render_text page' point' new_text' font_size' color' family font_weight s2 with
  | Ret _ s3 | Raise _ s3 => st_world s3 = st_world s2
  | Diverge => False
  end.
Proof.
  intros Hfirst Hsub. apply render_text_cached.
  unfold google_font_text, bind, in_world in Hfirst.
  destruct (download_font font_downloader family font_weight (st_world s))
    as [path w1|e w1|] eqn:Ed; [|discriminate|discriminate].
  apply download_font_returns in Ed as [-> Hin].
  apply insert_text_ret in Hfirst as (? & ? & ? & _ & _ & _ & _ & ->).
  simpl. eapply lookup_weaken_is_Some; eassumption.
Qed.

End Counting.

(** ** Colours that do not fit a float *)

Section ColourErrors.

Context `{Env}.

Lemma channel_cases (group : string) :
  (String.length group <= 640)%nat ->
  channel group
  = match float_of_Z (int_of_digits group) with
    | Some f => Ok (f / 255)%float
    | None => Err OverflowError
    end.
Proof.
  intros Hlen. unfold channel. rewrite (py_int_short _ Hlen). simpl.
  destruct (float_of_Z (int_of_digits group)); reflexivity.
Qed.

Lemma parse_color_overflow (color_rgb r g b : string) :
  rgb_prefix color_rgb r g b ->
  (String.length r <= 640)%nat -> (String.length g <= 640)%nat ->
  (String.length b <= 640)%nat ->
  float_of_Z (int_of_digits r) = None \/ float_of_Z (int_of_digits g) = None
  \/ float_of_Z (int_of_digits b) = None ->
  parse_color color_rgb = Err OverflowError.
Proof.
  intros Hp Lr Lg Lb Hnone. unfold parse_color.
  rewrite (match_rgb_complete _ _ _ _ Hp).
  rewrite (channel_cases r Lr), (channel_cases g Lg), (channel_cases b Lb).
  destruct (float_of_Z (int_of_digits r)); [|reflexivity].
  destruct (float_of_Z (int_of_digits g)); [|reflexivity].
  destruct (float_of_Z (int_of_digits b)); [|reflexivity].
  destruct Hnone as [?|[?|?]]; discriminate.
Qed.

(** X11: a colour that matches the pattern is not always parsed: when one
    of its three numbers is too large for a float, [int(...) / 255.0]
    raises OverflowError, and an instruction that is otherwise complete,
    for a page of the document, ends with that exception before anything
    is drawn; there is no fallback to black. *)
Theorem huge_color_channel_aborts_the_edit (e : Edit.t) (s : st) (pn : Z)
    (color_rgb r g b : string) :
  missing_required e = false ->
  Edit.pageNumber e = Some pn -> 1 <= pn <= Z.of_nat (page_count s) ->
  Edit.color e = Some color_rgb -> rgb_prefix color_rgb r g b ->
  (String.length r <= 640)%nat -> (String.length g <= 640)%nat ->
  (String.length b <= 640)%nat ->
  float_of_Z (int_of_digits r) = None \/ float_of_Z (int_of_digits g) = None
  \/ float_of_Z (int_of_digits b) = None ->
  apply_edit e s = Raise OverflowError s.
Proof.
  intros Hm Hpn Hrange Hc Hp Lr Lg Lb Hnone.
  unfold missing_required in Hm. unfold apply_edit, bind.
  rewrite Hpn in *. cbn [getitem lift ret raise].
  rewrite (doc_getitem_in_range s pn Hrange).
  destruct (Edit.newText e); [|discriminate].
  destruct (Edit.x e); [|discriminate].
  destruct (Edit.y e); [|discriminate].
  destruct (Edit.width e); [|discriminate].
  destruct (Edit.height e); [|discriminate].
  destruct (Edit.fontSize e); [|discriminate].
  cbn [getitem lift ret raise]. rewrite Hc. cbn [get_default].
  rewrite (parse_color_overflow _ _ _ _ Hp Lr Lg Lb Hnone). reflexivity.
Qed.

End ColourErrors.

(** ** Font extraction: what is reported *)

Section Reported.

Context `{Env}.

Lemma first_extracted_Some (doc : document) (name : string)
    (occs : list (nat * font_info)) (pn : nat) (fi : font_info) (buf : font_buffer) :
  first_extracted doc name occs = Some (pn, fi, buf) ->
  (pn, fi) ∈ occs /\ fi_name fi = name /\ extracted doc fi = Some buf.
Proof.
  induction occs as [|[pn' fi'] occs IH]; simpl; [discriminate|].
  destruct (String.eqb_spec (fi_name fi') name) as [Heq|Hneq].
  - destruct (extracted doc fi') as [buf'|] eqn:Ex.
    + intros [= -> -> ->]. repeat split; [|assumption..].
      apply elem_of_cons. left. reflexivity.
    + intros Hr. destruct (IH Hr) as (Hin & ? & ?).
      repeat split; [|assumption..]. apply elem_of_cons. right. exact Hin.
  - intros Hr. destruct (IH Hr) as (Hin & ? & ?).
    repeat split; [|assumption..]. apply elem_of_cons. right. exact Hin.
Qed.

Lemma occurrences_lookup (pages : list page) (k pn : nat) (fi : font_info) :
  (pn, fi) ∈ occurrences k pages ->
  exists pg : page,
    (k <= pn)%nat /\ pages !! (pn - k)%nat = Some pg /\ fi ∈ page_fonts pg.
Proof.
  revert k. induction pages as [|p rest IH]; intros k; simpl.
  - intros Hin. apply elem_of_nil in Hin. contradiction.
  - intros Hin. apply elem_of_app in Hin as [Hin|Hin].
    + apply list_elem_of_In, in_map_iff in Hin as (fi' & [= <- <-] & Hfi).
      exists p. rewrite Nat.sub_diag. repeat split; [lia|].
      apply list_elem_of_In. exact Hfi.
    + destruct (IH _ Hin) as (pg & Hle & Hl & Hfi).
      exists pg. repeat split; [lia| |exact Hfi].
      replace (pn - k)%nat with (S (pn - S k)) by lia. exact Hl.
Qed.

Lemma extracted_Some (doc : document) (fi : font_info) (buf : font_buffer) :
  extracted doc fi = Some buf ->
  doc_extract_font doc (fi_xref fi) = Some buf
  /\ fb_basename buf <> "" /\ fb_content buf <> "".
Proof.
  unfold extracted. destruct (doc_extract_font doc (fi_xref fi)) as [b|]; [|discriminate].
  destruct (is_empty (fb_basename b)) eqn:E1; [discriminate|].
  destruct (is_empty (fb_content b)) eqn:E2; [discriminate|].
  simpl. intros [= ->]. apply is_empty_false in E1, E2. repeat split; assumption.
Qed.

(** X10: the font extraction answers 400 without the [pdf] file and 500
    when the file does not open; otherwise it answers with two dictionaries
    that have the same names, and every entry comes from the document: the
    page in [pages] exists and references a font of that name, that font's
    xref extracts to a named font with at least one byte, [fonts] holds
    the encoding of those bytes, and the type, extension and size reported
    are those of that reference and of that extraction. *)
Theorem extract_fonts_reports_only_what_extracts (req : request) :
  (files_pdf req = None ->
   extract_fonts req = JsonError 400 (Message "No PDF file provided"))
  /\ (forall pdf : string,
        files_pdf req = Some pdf -> fitz_open pdf = None ->
        extract_fonts req = JsonError 500 (Exception FitzError))
  /\ (forall (pdf : string) (doc : document),
        files_pdf req = Some pdf -> fitz_open pdf = Some doc ->
        exists (fonts : gmap string string) (metadata : gmap string font_meta),
          extract_fonts req = JsonFonts fonts metadata
          /\ dom fonts = dom metadata
          /\ forall (name : string) (m : font_meta),
               metadata !! name = Some m ->
               exists (pn : nat) (pg : page) (fi : font_info) (buf : font_buffer),
                 meta_pages m = [Z.of_nat pn + 1]
                 /\ doc_pages doc !! pn = Some pg
                 /\ fi ∈ page_fonts pg /\ fi_name fi = name
                 /\ doc_extract_font doc (fi_xref fi) = Some buf
                 /\ fb_basename buf <> ""
                 /\ fonts !! name = Some (b64encode (fb_content buf))
                 /\ meta_type m = fi_item1 fi /\ meta_ext m = fb_ext buf
                 /\ meta_size m = String.length (fb_content buf)
                 /\ (0 < meta_size m)%nat).
Proof.
  unfold extract_fonts. split; [intros ->; reflexivity|].
  split; [intros pdf -> ->; reflexivity|].
  intros pdf doc -> ->. rewrite extract_pages_occurrences.
  destruct (fold_left _ _ _) as [fonts metadata] eqn:E.
  exists fonts, metadata. split; [reflexivity|].
  assert (Hl : forall name,
             fonts !! name
             = data_of <$> first_extracted doc name (occurrences 0 (doc_pages doc))
             /\ metadata !! name
                = meta_of <$> first_extracted doc name (occurrences 0 (doc_pages doc))).
  { intros name.
    pose proof (extract_fold_lookup doc name (occurrences 0 (doc_pages doc)) ∅ ∅
                  (fun _ => lookup_empty name)) as Hl.
    cbv zeta in Hl. rewrite E in Hl. simpl in Hl. rewrite !lookup_empty in Hl.
    exact Hl. }
  split.
  - apply set_eq. intros name. rewrite !elem_of_dom.
    destruct (Hl name) as [-> ->]. rewrite !fmap_is_Some. reflexivity.
  - intros name m Hm. destruct (Hl name) as [Hf Hmeta]. rewrite Hmeta in Hm.
    destruct (first_extracted _ _ _) as [[[pn fi] buf]|] eqn:Efe; [|discriminate].
    simpl in Hm. injection Hm as <-.
    apply first_extracted_Some in Efe as (Hin & Hname & Hex).
    apply occurrences_lookup in Hin as (pg & _ & Hpg & Hfi).
    rewrite Nat.sub_0_r in Hpg.
    apply extracted_Some in Hex as (Hx & Hb & Hc).
    exists pn, pg, fi, buf. simpl.
    repeat split; try assumption.
    destruct (fb_content buf); [congruence|simpl; lia].
Qed.

End Reported.

(** ** The derived family *)












(** ** Concrete runs of the further properties *)

Lemma edit_pdf_status_codes_witness :
  @edit_pdf arial_env no_pdf_request empty_world
  = Ret (JsonError 400 (Message "No PDF file provided")) empty_world.
Proof.
  exact (proj1 (@edit_pdf_status_codes arial_env no_pdf_request empty_world) eq_refl).
Defined.

Lemma edit_pdf_only_adds_to_pages_witness :
  length (doc_pages (edited_doc (FontName "Helvetica-Bold")))
  = length (doc_pages one_page_doc)
  /\ forall (j : nat) (pg : page),
       doc_pages one_page_doc !! j = Some pg ->
       exists (pg' : page) (ops : list draw_op),
         doc_pages (edited_doc (FontName "Helvetica-Bold")) !! j = Some pg'
         /\ page_content pg' = (page_content pg ++ ops)%list.
Proof.
  apply (@edit_pdf_only_adds_to_pages arial_env sample_request empty_world
           empty_world "%PDF-1.7"); reflexivity.
Defined.

Lemma edit_pdf_adds_two_operations_per_edit_witness :
  exists steps : list drawing,
    Forall2 (draws (length (doc_pages one_page_doc))) [sample_edit 1 "Arial"] steps
    /\ (forall (j : nat) (pg : page),
          doc_pages one_page_doc !! j = Some pg ->
          exists pg' : page,
            doc_pages (edited_doc (FontName "Helvetica-Bold")) !! j = Some pg'
            /\ page_content pg' = (page_content pg ++ ops_on j steps)%list)
    /\ length (doc_pages (edited_doc (FontName "Helvetica-Bold")))
       = length (doc_pages one_page_doc)
    /\ total_ops (edited_doc (FontName "Helvetica-Bold"))
       = (total_ops one_page_doc + 2 * length [sample_edit 1 "Arial"])%nat.
Proof.
  apply (@edit_pdf_adds_two_operations_per_edit arial_env sample_request empty_world
           empty_world "%PDF-1.7" "[...]");
    try reflexivity; discriminate.
Defined.

Lemma base14_requests_stay_offline_witness :
  uses_base14 (sample_edit 1 "Arial") = true
  /\ @edit_pdf arial_env sample_request empty_world
     = Ret (SendFile (edited_doc (FontName "Helvetica-Bold"))) empty_world.
Proof.
  split; [reflexivity|].
  assert (Hrun : exists w', @edit_pdf arial_env sample_request empty_world
                   = Ret (SendFile (edited_doc (FontName "Helvetica-Bold"))) w')
    by (exists empty_world; reflexivity).
  destruct Hrun as [w' Hrun]. rewrite Hrun. f_equal.
  apply (@base14_requests_stay_offline arial_env sample_request empty_world w'
           "[...]" [sample_edit 1 "Arial"]
           (SendFile (edited_doc (FontName "Helvetica-Bold"))) eq_refl eq_refl);
    [|exact Hrun].
  intros e He. apply elem_of_cons in He as [->|He]; [reflexivity|].
  apply elem_of_nil in He. contradiction.
Defined.

Lemma downloaded_font_is_reused_witness :
  match @render_text rubik_online_env 0 (PyInt 10, PyFloat 60) "Again" (PyInt 12)
          white "Rubik" 700 rubik_state with
  | Ret _ s3 | Raise _ s3 => st_world s3 = st_world rubik_state
  | Diverge => False
  end.
Proof.
  apply (@downloaded_font_is_reused rubik_online_env 0 0 (PyInt 10, PyFloat 30)
           (PyInt 10, PyFloat 60) "Hello" "Again" (PyInt 10) (PyInt 12) black white
           "Rubik" 700 start_state rubik_state rubik_state); reflexivity.
Defined.

Lemma extract_fonts_reports_only_what_extracts_witness :
  exists (fonts : gmap string string) (metadata : gmap string font_meta),
    @extract_fonts two_arials_env sample_request = JsonFonts fonts metadata
    /\ dom fonts = dom metadata.
Proof.
  destruct (proj2 (proj2 (@extract_fonts_reports_only_what_extracts two_arials_env
                            sample_request)) "%PDF-1.7" two_arials eq_refl eq_refl)
    as (fonts & metadata & Hx & Hdom & _).
  exists fonts, metadata. split; assumption.
Defined.

Lemma huge_color_channel_aborts_the_edit_witness :
  @apply_edit arial_env huge_color_edit start_state = Raise OverflowError start_state.
Proof.
  apply (@huge_color_channel_aborts_the_edit arial_env huge_color_edit start_state 1
           huge_color huge_numeral "0" "0"); try reflexivity.
  - unfold page_count. simpl. lia.
  - exists " ", " ", "". repeat split; try reflexivity; vm_compute; discriminate.
  - apply Nat.leb_le. reflexivity.
  - simpl. lia.
  - simpl. lia.
  - left. reflexivity.
Defined.
